(** * Beam analysis: deflection, bending moment and shear force equations

    A shallow embedding of the beam-analysis core of the CLT toolbox
    ([Material], [Beam], the [BeamAnalysis] facade and its two analyzers,
    [simplySupported] and [twoSpanUnequal]).

    The repository holds two revisions of the core.  The first one
    (module [V1]) evaluates every quantity span by span with the
    single-span formulas.  The second one (module [V2]) solves the support
    reactions of the continuous beam, returns a pair of points at the
    interior support and rejects positions that are not numbers.

    Around the core, [AnalysisPlotter.plot] of the second revision (the
    sampling of an equation into the two datasets of a chart) and the
    geometry of [LayupDrawer.drawLayup] (the scaling and stacking of the
    layers of a panel) are modelled as well.

    Numbers.  JavaScript numbers are read in exact arithmetic: a finite
    number is a rational [Q].  A computed value that is not a finite
    number (the [NaN] obtained from a missing material property, the
    [Infinity] or [NaN] of a division by zero) is the single value
    [NonFinite]; every operation the analyzers apply to such a value
    yields such a value again, because no divisor of the program can be
    infinite: the divisors are [2], [6], [24], [L1], [L2], [8 * (L1 + L2)],
    [24 * EI], [EI / 1000^3] and [24 * (EI / 1000^3)].  Rounding of
    floating-point operations is outside the model: a theorem that gives
    the value of an expression of the program names the value the program
    computes up to that rounding, and a theorem that equates two values
    the program computes separately (a jump with a reaction, a moment at
    a support with 0) is a statement of exact arithmetic, which binary64
    can miss by a few units in the last place.  [Binary64] below computes
    one such case with the floating-point numbers of the kernel. *)

From Stdlib Require Import QArith Qabs Qround Qfield Lqa ZArith Lia String.
From Stdlib Require PrimFloat.
From stdpp Require Import base decidable option list strings gmap.

Local Open Scope Z_scope.
Local Open Scope Q_scope.

(** ** Numbers *)

Inductive num : Type :=
  | Fin (q : Q)
  | NonFinite.

Coercion Fin : Q >-> num.

Declare Scope num_scope.
Delimit Scope num_scope with num.
Bind Scope num_scope with num.

Definition nopp (a : num) : num :=
  match a with
  | Fin p => Fin (- p)
  | NonFinite => NonFinite
  end.

Definition nadd (a b : num) : num :=
  match a, b with
  | Fin p, Fin q => Fin (p + q)
  | _, _ => NonFinite
  end.

Definition nsub (a b : num) : num :=
  match a, b with
  | Fin p, Fin q => Fin (p - q)
  | _, _ => NonFinite
  end.

Definition nmul (a b : num) : num :=
  match a, b with
  | Fin p, Fin q => Fin (p * q)
  | _, _ => NonFinite
  end.

(** [p / 0] is [Infinity], [-Infinity] or [NaN]. *)
Definition ndiv (a b : num) : num :=
  match a, b with
  | Fin p, Fin q => if Qeq_bool q 0 then NonFinite else Fin (p / q)
  | _, _ => NonFinite
  end.

(** [Math.pow(a, n)] and [a ** n] for the literal exponents of the
    program, which are 2 and 3. *)
Fixpoint npow (a : num) (n : nat) : num :=
  match n with
  | O => Fin 1
  | S m => nmul a (npow a m)
  end.

Notation "- a" := (nopp a) : num_scope.
Infix "+" := nadd : num_scope.
Infix "-" := nsub : num_scope.
Infix "*" := nmul : num_scope.
Infix "/" := ndiv : num_scope.
Infix "^" := npow : num_scope.

(** [Number.prototype.toFixed(2)] followed by [parseFloat]: the nearest
    multiple of 1/100, a tie going away from zero; from 10^21 on
    [toFixed] prints the number itself. *)
Definition round_half_up (q : Q) : Z := Qfloor (q + (1 # 2)).

Definition toFixed2 (q : Q) : Q :=
  if Qle_bool (10 ^ 21) (Qabs q) then q
  else if Qle_bool 0 q then inject_Z (round_half_up (q * 100)) / 100
  else - (inject_Z (round_half_up (- q * 100)) / 100).

Definition parseFloat_toFixed2 (a : num) : num :=
  match a with
  | Fin q => Fin (toFixed2 q)
  | NonFinite => NonFinite
  end.

(** Equality of numbers as values: rationals up to [Qeq]. *)
Definition num_equiv (a b : num) : Prop :=
  match a, b with
  | Fin p, Fin q => p == q
  | NonFinite, NonFinite => True
  | _, _ => False
  end.

(** ** Values

    A position handed to an equation is any value of the language.  The
    model keeps the finite numbers and the primitive values [undefined],
    [null], [true] and [false].  Strings and objects, whose conversion to
    a number parses text or calls methods, and the numbers [NaN] and
    [Infinity] are not modelled as positions. *)

Inductive jsval : Type :=
  | JNum (q : Q)
  | JUndefined
  | JNull
  | JBool (b : bool).

Definition typeof (v : jsval) : string :=
  match v with
  | JNum _ => "number"
  | JUndefined => "undefined"
  | JNull => "object"
  | JBool _ => "boolean"
  end.

(** The conversion applied by the arithmetic and relational operators:
    [undefined] becomes [NaN], [null] becomes 0, [true] becomes 1. *)
Definition ToNumber (v : jsval) : num :=
  match v with
  | JNum q => Fin q
  | JUndefined => NonFinite
  | JNull => Fin 0
  | JBool b => Fin (if b then 1 else 0)
  end.

(** [v >= b], [v <= b], [v > b], [v < b] against a finite bound; a
    comparison with [NaN] is false. *)
Definition js_ge (v : jsval) (b : Q) : bool :=
  match ToNumber v with
  | Fin q => Qle_bool b q
  | NonFinite => false
  end.

Definition js_le (v : jsval) (b : Q) : bool :=
  match ToNumber v with
  | Fin q => Qle_bool q b
  | NonFinite => false
  end.

Definition js_gt (v : jsval) (b : Q) : bool :=
  match ToNumber v with
  | Fin q => negb (Qle_bool q b)
  | NonFinite => false
  end.

Definition js_lt (v : jsval) (b : Q) : bool :=
  match ToNumber v with
  | Fin q => negb (Qle_bool b q)
  | NonFinite => false
  end.

(** [v === b]: no conversion, a value that is not a number differs from
    every number. *)
Definition js_strict_eq (v : jsval) (b : Q) : bool :=
  match v with
  | JNum q => Qeq_bool q b
  | _ => false
  end.

(** ** Objects used as maps

    [o[k]] on an object literal: an own property, or else a property of
    [Object.prototype], or else [undefined]. *)

Definition Object_prototype : list string :=
  [ "constructor"; "__defineGetter__"; "__defineSetter__"; "hasOwnProperty";
    "__lookupGetter__"; "__lookupSetter__"; "isPrototypeOf";
    "propertyIsEnumerable"; "toString"; "valueOf"; "__proto__";
    "toLocaleString" ]%string.

Inductive property (A : Type) : Type :=
  | Own (v : A)
  | Inherited
  | Absent.

Arguments Own {A} v.
Arguments Inherited {A}.
Arguments Absent {A}.

Definition get {A : Type} (o : gmap string A) (k : string) : property A :=
  match o !! k with
  | Some v => Own v
  | None => if bool_decide (k ∈ Object_prototype) then Inherited else Absent
  end.

(** ** Beam analysis data types *)

Record Material : Type := mkMaterial {
  name : string;
  properties : gmap string Q
}.

Record Beam : Type := mkBeam {
  primarySpan : Q;
  secondarySpan : Q;
  material : Material
}.

(** A material property read as a number: what is not an own numeric
    property enters the arithmetic as [NaN]. *)
Definition number_property (m : Material) (k : string) : num :=
  match get (properties m) k with
  | Own v => Fin v
  | Inherited | Absent => NonFinite
  end.

(** ** Results of an equation *)

Inductive yvalue : Type :=
  | YNum (n : num)
  | YNull.

(** The object literals the equations build: [{x: x, y: y}] and
    [{x: x, deflection: null}]. *)
Inductive object : Type :=
  | Point (x : jsval) (y : yvalue)
  | DeflectionNull (x : jsval).

(** What an equation returns: an object, an array of objects, a string,
    or nothing ([undefined], when no [return] is reached). *)
Inductive result : Type :=
  | RObject (o : object)
  | RArray (l : list object)
  | RString (s : string)
  | RUndefined.

(** Reading [o.x] and [o.y]; [None] is an absent property. *)
Definition get_x (o : object) : jsval :=
  match o with
  | Point x _ => x
  | DeflectionNull x => x
  end.

Definition get_y (o : object) : option yvalue :=
  match o with
  | Point _ y => Some y
  | DeflectionNull _ => None
  end.

(** The three methods every analyzer has. *)
Record Analyzer : Type := mkAnalyzer {
  getDeflectionEquation : Beam -> Q -> jsval -> result;
  getBendingMomentEquation : Beam -> Q -> jsval -> result;
  getShearForceEquation : Beam -> Q -> jsval -> result
}.

Inductive exception : Type :=
  | Error (message : string)
  | TypeError.

Inductive completion (A : Type) : Type :=
  | Return (v : A)
  | Throw (e : exception).

Arguments Return {A} v.
Arguments Throw {A} e.

(** ** First revision *)

Module V1.

Module simplySupported.

Definition getDeflectionEquation (beam : Beam) (load : Q) : jsval -> result :=
  let primarySpan := primarySpan beam in
  let EI := number_property (material beam) "EI" in
  fun x =>
    let L := primarySpan in
    let w := load in
    let xn := ToNumber x in
    if js_ge x 0 && js_le x L then
      RObject (Point x
        (YNum ((w * xn * (L ^ 3 - 2 * L * xn ^ 2 + xn ^ 3)) / (24 * EI))%num))
    else
      RObject (Point x YNull).

Definition getBendingMomentEquation (beam : Beam) (load : Q) : jsval -> result :=
  let primarySpan := primarySpan beam in
  fun x =>
    let L := primarySpan in
    let w := load in
    let xn := ToNumber x in
    if js_ge x 0 && js_le x L then
      RObject (Point x (YNum ((w * xn * (L - xn)) / 2)%num))
    else
      RObject (Point x YNull).

Definition getShearForceEquation (beam : Beam) (load : Q) : jsval -> result :=
  let primarySpan := primarySpan beam in
  fun x =>
    let L := primarySpan in
    let w := load in
    let xn := ToNumber x in
    if js_ge x 0 && js_le x L then
      RObject (Point x (YNum (w * (L / 2 - xn))%num))
    else
      RObject (Point x YNull).

Definition analyzer : Analyzer :=
  mkAnalyzer getDeflectionEquation getBendingMomentEquation
             getShearForceEquation.

End simplySupported.

Module twoSpanUnequal.

Definition getDeflectionEquation (beam : Beam) (load : Q) : jsval -> result :=
  let primarySpan := primarySpan beam in
  let secondarySpan := secondarySpan beam in
  let EI := number_property (material beam) "EI" in
  fun x =>
    let L1 := primarySpan in
    let L2 := secondarySpan in
    let w := load in
    let xn := ToNumber x in
    if js_ge x 0 && js_le x L1 then
      RObject (Point x
        (YNum ((w * xn * (L1 ^ 3 - 2 * L1 * xn ^ 2 + xn ^ 3)) / (24 * EI))%num))
    else if js_gt x L1 && js_le x (L1 + L2) then
      let x2 := (xn - L1)%num in
      RObject (Point x
        (YNum ((w * x2 * (L2 ^ 3 - 2 * L2 * x2 ^ 2 + x2 ^ 3)) / (24 * EI))%num))
    else
      RObject (Point x YNull).

Definition getBendingMomentEquation (beam : Beam) (load : Q) : jsval -> result :=
  let primarySpan := primarySpan beam in
  let secondarySpan := secondarySpan beam in
  fun x =>
    let L1 := primarySpan in
    let L2 := secondarySpan in
    let w := load in
    let xn := ToNumber x in
    if js_ge x 0 && js_le x L1 then
      RObject (Point x (YNum ((w * xn * (L1 - xn)) / 2)%num))
    else if js_gt x L1 && js_le x (L1 + L2) then
      let x2 := (xn - L1)%num in
      RObject (Point x (YNum (- (w * x2 * (L2 - x2)) / 2)%num))
    else
      RObject (Point x YNull).

Definition getShearForceEquation (beam : Beam) (load : Q) : jsval -> result :=
  let primarySpan := primarySpan beam in
  let secondarySpan := secondarySpan beam in
  fun x =>
    let L1 := primarySpan in
    let L2 := secondarySpan in
    let w := load in
    let xn := ToNumber x in
    if js_ge x 0 && js_le x L1 then
      RObject (Point x (YNum (w * (L1 / 2 - xn))%num))
    else if js_gt x L1 && js_le x (L1 + L2) then
      let x2 := (xn - L1)%num in
      RObject (Point x (YNum (w * (L2 / 2 - x2))%num))
    else
      RObject (Point x YNull).

Definition analyzer : Analyzer :=
  mkAnalyzer getDeflectionEquation getBendingMomentEquation
             getShearForceEquation.

End twoSpanUnequal.

(** The bundle a facade call returns: [{beam, load, equation}]. *)
Record Analysis : Type := mkAnalysis {
  beam : Beam;
  load : Q;
  equation : jsval -> result
}.

Module BeamAnalysis.

Definition analyzer : gmap string Analyzer :=
  {[ "simply-supported"%string := simplySupported.analyzer;
     "two-span-unequal"%string := twoSpanUnequal.analyzer ]}.

(** [this.options]: set by the constructor, read by no method. *)
Definition options : gmap string string :=
  {[ "condition"%string := "simply-supported"%string ]}.

(** [analyzer[condition]] is truthy when it is an own or an inherited
    property; an inherited one has no equation method, and calling
    the missing method throws a [TypeError]. *)
Definition getDeflection (beam : Beam) (load : Q) (condition : string)
    : completion Analysis :=
  match get analyzer condition with
  | Own a => Return (mkAnalysis beam load (getDeflectionEquation a beam load))
  | Inherited => Throw TypeError
  | Absent => Throw (Error "Invalid condition")
  end.

Definition getBendingMoment (beam : Beam) (load : Q) (condition : string)
    : completion Analysis :=
  match get analyzer condition with
  | Own a => Return (mkAnalysis beam load (getBendingMomentEquation a beam load))
  | Inherited => Throw TypeError
  | Absent => Throw (Error "Invalid condition")
  end.

Definition getShearForce (beam : Beam) (load : Q) (condition : string)
    : completion Analysis :=
  match get analyzer condition with
  | Own a => Return (mkAnalysis beam load (getShearForceEquation a beam load))
  | Inherited => Throw TypeError
  | Absent => Throw (Error "Invalid condition")
  end.

End BeamAnalysis.

End V1.

(** ** Second revision *)

Module V2.

Module simplySupported.

Definition getDeflectionEquation (beam : Beam) (load : Q) : jsval -> result :=
  let primarySpan := primarySpan beam in
  let j2 := number_property (material beam) "j2" in
  let EI := number_property (material beam) "EI" in
  fun x =>
    let L := primarySpan in
    let w := load in
    let xn := ToNumber x in
    if js_ge x 0 && js_le x L then
      let deflection :=
        (- ((w * xn) / (24 * EI)) *
         (L ^ 3 - 2 * L * xn ^ 2 + xn ^ 3) *
         j2 *
         1000)%num in
      let simplifiedDeflection := parseFloat_toFixed2 (deflection * 10 ^ 9)%num in
      RObject (Point x (YNum simplifiedDeflection))
    else
      RObject (DeflectionNull x).

Definition getBendingMomentEquation (beam : Beam) (load : Q) : jsval -> result :=
  let primarySpan := primarySpan beam in
  fun x =>
    let L := primarySpan in
    let w := load in
    let xn := ToNumber x in
    if js_ge x 0 && js_le x L then
      RObject (Point x (YNum (((w * xn) / 2) * (L - xn))%num))
    else
      RObject (Point x YNull).

Definition getShearForceEquation (beam : Beam) (load : Q) : jsval -> result :=
  let primarySpan := primarySpan beam in
  fun x =>
    let L := primarySpan in
    let w := load in
    let xn := ToNumber x in
    if js_ge x 0 && js_le x L then
      RObject (Point x (YNum (w * (L / 2 - xn))%num))
    else
      RObject (Point x YNull).

Definition analyzer : Analyzer :=
  mkAnalyzer getDeflectionEquation getBendingMomentEquation
             getShearForceEquation.

End simplySupported.

Module twoSpanUnequal.

(** The interior-support moment and the three support reactions.
    Each of the three closures below opens with these same
    statements. *)
Record Reactions : Type := mkReactions {
  M1 : num;
  R1 : num;
  R3 : num;
  R2 : num
}.

Definition reactions (L1 L2 w : Q) : Reactions :=
  let wl1 : num := (w * L1)%num in
  let wl2 : num := (w * L2)%num in
  let M1 := (- ((w * L1 ^ 3 + w * L1 ^ 3) / (8 * (L1 + L2))))%num in
  let R1 := (M1 / L1 + wl1 / 2)%num in
  let R3 := (M1 / L2 + wl2 / 2)%num in
  let R2 := (wl1 + wl2 - R1 - R3)%num in
  mkReactions M1 R1 R3 R2.

Definition getDeflectionEquation (beam : Beam) (load : Q) : jsval -> result :=
  let primarySpan := primarySpan beam in
  let secondarySpan := secondarySpan beam in
  let j2 := number_property (material beam) "j2" in
  let EI := number_property (material beam) "EI" in
  fun x =>
    let L1 := primarySpan in
    let L2 := secondarySpan in
    let w := load in
    let L := L1 + L2 in
    let R1 := R1 (reactions L1 L2 w) in
    let R2 := R2 (reactions L1 L2 w) in
    let xn := ToNumber x in
    if js_ge x 0 && js_le x L1 then
      RObject (Point x
        (YNum ((xn / (24 * (EI / 1000 ^ 3))) *
               (4 * R1 * xn ^ 2 -
                w * xn ^ 3 +
                w * L1 ^ 3 -
                4 * R1 * L1 ^ 2) *
               1000 *
               j2)%num))
    else if js_gt x L1 && js_le x L then
      RObject (Point x
        (YNum ((1 / (EI / 1000 ^ 3)) *
                 ((R1 * xn) / 6) *
                 (xn ^ 2 - L1 ^ 2) +
               ((R2 * xn) / 6) *
                 (xn ^ 2 -
                  3 * L1 * xn +
                  3 * L1 ^ 2) -
               (R2 * L1 ^ 3) / 6 -
               ((w * xn) / 24) * (xn ^ 3 - L1 ^ 3))%num))
    else
      RUndefined.

Definition getBendingMomentEquation (beam : Beam) (load : Q) : jsval -> result :=
  let primarySpan := primarySpan beam in
  let secondarySpan := secondarySpan beam in
  fun x =>
    if negb (String.eqb (typeof x) "number") then
      RString "Invalid input: x must be a number."
    else
      let L1 := primarySpan in
      let L2 := secondarySpan in
      let w := load in
      let L := L1 + L2 in
      let R1 := R1 (reactions L1 L2 w) in
      let R2 := R2 (reactions L1 L2 w) in
      let xn := ToNumber x in
      if js_strict_eq x 0 then
        RObject (Point x (YNum 0))
      else if js_gt x 0 && js_lt x L1 then
        RObject (Point x (YNum (R1 * xn - (w * xn ^ 2) / 2)%num))
      else if js_strict_eq x L1 then
        RArray
          [ Point x (YNum (R1 * L1 - (w * L1 ^ 2) / 2)%num);
            Point x (YNum (R1 * L1 + R2 * 0 - (w * L1 ^ 2) / 2)%num) ]
      else if js_gt x L1 && js_lt x L then
        RObject (Point x
          (YNum (R1 * xn + R2 * (xn - L1) - (w * xn ^ 2) / 2)%num))
      else if js_strict_eq x L then
        RObject (Point x
          (YNum (R1 * L + R2 * (L - L1) - (w * L ^ 2) / 2)%num))
      else
        RObject (Point x YNull).

Definition getShearForceEquation (beam : Beam) (load : Q) : jsval -> result :=
  let primarySpan := primarySpan beam in
  let secondarySpan := secondarySpan beam in
  fun x =>
    if negb (String.eqb (typeof x) "number") then
      RString "Invalid input: x must be a number."
    else
      let L1 := primarySpan in
      let L2 := secondarySpan in
      let w := load in
      let totalLength := L1 + L2 in
      let R1 := R1 (reactions L1 L2 w) in
      let R2 := R2 (reactions L1 L2 w) in
      let xn := ToNumber x in
      if js_strict_eq x 0 then
        RObject (Point x (YNum R1))
      else if js_gt x 0 && js_lt x L1 then
        RObject (Point x (YNum (R1 - w * xn)%num))
      else if js_strict_eq x L1 then
        RArray
          [ Point x (YNum (R1 - w * L1)%num);
            Point x (YNum (R1 + R2 - w * L1)%num) ]
      else if js_gt x L1 && js_lt x totalLength then
        RObject (Point x (YNum (R1 + R2 - w * xn)%num))
      else if js_strict_eq x totalLength then
        RObject (Point x (YNum (R1 + R2 - w * totalLength)%num))
      else
        RObject (Point x YNull).

Definition analyzer : Analyzer :=
  mkAnalyzer getDeflectionEquation getBendingMomentEquation
             getShearForceEquation.

End twoSpanUnequal.

(** The bundle a facade call returns:
    [{beam, load, equation, condition}]. *)
Record Analysis : Type := mkAnalysis {
  beam : Beam;
  load : Q;
  equation : jsval -> result;
  condition : string
}.

Module BeamAnalysis.

Definition analyzer : gmap string Analyzer :=
  {[ "simply-supported"%string := simplySupported.analyzer;
     "two-span-unequal"%string := twoSpanUnequal.analyzer ]}.

(** [this.options]: set by the constructor, read by no method. *)
Definition options : gmap string string :=
  {[ "condition"%string := "simply-supported"%string ]}.

Definition getDeflection (beam : Beam) (load : Q) (condition : string)
    : completion Analysis :=
  match get analyzer condition with
  | Own a =>
      Return (mkAnalysis beam load (getDeflectionEquation a beam load) condition)
  | Inherited => Throw TypeError
  | Absent => Throw (Error "Invalid condition")
  end.

Definition getBendingMoment (beam : Beam) (load : Q) (condition : string)
    : completion Analysis :=
  match get analyzer condition with
  | Own a =>
      Return (mkAnalysis beam load (getBendingMomentEquation a beam load) condition)
  | Inherited => Throw TypeError
  | Absent => Throw (Error "Invalid condition")
  end.

Definition getShearForce (beam : Beam) (load : Q) (condition : string)
    : completion Analysis :=
  match get analyzer condition with
  | Own a =>
      Return (mkAnalysis beam load (getShearForceEquation a beam load) condition)
  | Inherited => Throw TypeError
  | Absent => Throw (Error "Invalid condition")
  end.

End BeamAnalysis.

End V2.

(** ** Results compared as values

    Two results are the same value when they have the same shape and
    their numbers are equal as rationals. *)

Definition jsval_equiv (a b : jsval) : Prop :=
  match a, b with
  | JNum p, JNum q => p == q
  | JUndefined, JUndefined => True
  | JNull, JNull => True
  | JBool c, JBool d => c = d
  | _, _ => False
  end.

Definition yvalue_equiv (a b : yvalue) : Prop :=
  match a, b with
  | YNum m, YNum n => num_equiv m n
  | YNull, YNull => True
  | _, _ => False
  end.

Definition object_equiv (a b : object) : Prop :=
  match a, b with
  | Point x y, Point x' y' => jsval_equiv x x' /\ yvalue_equiv y y'
  | DeflectionNull x, DeflectionNull x' => jsval_equiv x x'
  | _, _ => False
  end.

Definition result_equiv (a b : result) : Prop :=
  match a, b with
  | RObject o, RObject o' => object_equiv o o'
  | RArray l, RArray l' => Forall2 object_equiv l l'
  | RString s, RString s' => s = s'
  | RUndefined, RUndefined => True
  | _, _ => False
  end.

(** ** The plotter

    [AnalysisPlotter.plot] of the second revision samples an equation
    every half unit along the two spans and hands the samples to the
    charting library.  The model computes what [plot] passes to the
    [Chart] constructor (the labels, the points of the two datasets and
    the title of the y axis; the styling constants are left out) together
    with the beam as [plot] leaves it, or the exception it throws.  The
    step 0.5 and its multiples are exact in binary floating point, so the
    positions sampled are those of the program. *)

Definition bind {A B : Type} (c : completion A) (k : A -> completion B)
    : completion B :=
  match c with
  | Return v => k v
  | Throw e => Throw e
  end.

(** [l.map(f)] when [f] may throw: the calls are made in order and the
    first exception ends the map. *)
Fixpoint map_completion {A B : Type} (f : A -> completion B) (l : list A)
    : completion (list B) :=
  match l with
  | [] => Return []
  | a :: l' =>
      bind (f a) (fun b =>
      bind (map_completion f l') (fun bs =>
      Return (b :: bs)))
  end.

Definition isArray (r : result) : bool :=
  match r with
  | RArray _ => true
  | _ => false
  end.

Module AnalysisPlotter.

Definition step : Q := 1 # 2.

(** [for (let x = start; x <= stop; x += step) xs.push(x)], unrolled at
    most [fuel] times. *)
Fixpoint sample (fuel : nat) (x stop : Q) : list Q :=
  match fuel with
  | O => []
  | S n => if Qle_bool x stop then x :: sample n (x + step) stop else []
  end.

(** The number of rounds after which the test of the loop fails. *)
Definition rounds (start stop : Q) : nat :=
  if Qle_bool start stop
  then S (Z.to_nat (Qfloor ((stop - start) / step)))
  else O.

Definition xValues (start stop : Q) : list Q :=
  sample (rounds start stop) start stop.

(** The [y] of a plotted point: a number, [null], or [undefined] when the
    result has no [y] property. *)
Inductive chart_y : Type :=
  | CNum (n : num)
  | CNull
  | CUndefined.

Definition object_y (o : object) : chart_y :=
  match get_y o with
  | Some (YNum n) => CNum n
  | Some YNull => CNull
  | None => CUndefined
  end.

(** The callback of the two maps over the positions:
    [Array.isArray(result) ? {x, y: result[i].y} : {x, y: result.y}],
    with [i = 0] for the primary span and [i = 1] for the secondary one.
    Reading [.y] of [undefined] throws; a string has no [y]. *)
Definition point_of (i : nat) (equation : jsval -> result) (x : Q)
    : completion (Q * chart_y) :=
  let result := equation (JNum x) in
  if isArray result then
    match result with
    | RArray l =>
        match l !! i with
        | Some o => Return (x, object_y o)
        | None => Throw TypeError
        end
    | _ => Throw TypeError
    end
  else
    match result with
    | RObject o => Return (x, object_y o)
    | RString _ => Return (x, CUndefined)
    | _ => Throw TypeError
    end.

Record ChartData : Type := mkChartData {
  labels : list Q;
  dataset1 : list (Q * chart_y);
  dataset2 : list (Q * chart_y);
  yTitle : string
}.

(** [labels.map((x, i) => ({x, y: data[i]}))]. *)
Definition zip_by_index (labels : list Q) (data : list chart_y)
    : list (Q * chart_y) :=
  imap (fun i x => (x, default CUndefined (data !! i))) labels.

Definition plot (container : string) (data : V2.Analysis)
    : completion (Beam * ChartData) :=
  let beam := V2.beam data in
  let equation := V2.equation data in
  let condition := V2.condition data in
  let beam :=
    if String.eqb condition "simply-supported"
    then mkBeam (primarySpan beam) 0 (material beam)
    else beam in
  let xValuesPrimary := xValues 0 (primarySpan beam) in
  let xValuesSecondary :=
    xValues (primarySpan beam) (primarySpan beam + secondarySpan beam) in
  bind (map_completion (point_of 0 equation) xValuesPrimary) (fun pointsPrimary =>
  bind (map_completion (point_of 1 equation) xValuesSecondary) (fun pointsSecondary =>
  let labelsPrimary := map fst pointsPrimary in
  let labelsSecondary := map fst pointsSecondary in
  let dataPrimary := map snd pointsPrimary in
  let dataSecondary := map snd pointsSecondary in
  let labelsSecondary :=
    if String.eqb condition "simply-supported"
    then tail labelsSecondary
    else labelsSecondary in
  Return
    (beam,
     mkChartData
       (labelsPrimary ++ labelsSecondary)
       (zip_by_index labelsPrimary dataPrimary)
       (zip_by_index labelsSecondary dataSecondary)
       (if String.eqb container "shear_force_plot" then "Shear Force (kN)"
        else if String.eqb container "deflection_plot" then "Deflection (mm)"
        else "Bending Moment (kNm)")))).

End AnalysisPlotter.

(** ** The layup drawer

    [LayupDrawer.drawLayup] scales the layers of a panel to the height of
    the canvas and draws them from the bottom up, one [drawLayer] call per
    layer; each call is made from the callback of the previous one, which
    runs once the image of that layer has loaded or has failed to load.
    The model computes the scale and the calls [drawLayer(layer, yOffset,
    ...)] in the order they are made, with the height and width
    [drawLayer] gives the layer.  The drawing itself (images, canvas) is
    not modelled. *)

Module LayupDrawer.

Record Layer : Type := mkLayer {
  label : string;
  thickness : Q;
  grade : string;
  angle : Q;
  image : string
}.

Definition canvasWidth : Q := 800.
Definition canvasHeight : Q := 435.

(** [layupData.reduce((sum, layer) => sum + layer.thickness, 0)]. *)
Definition totalThickness (layupData : list Layer) : Q :=
  fold_left (fun sum layer => sum + thickness layer) layupData 0.

Definition thicknessScale (layupData : list Layer) : num :=
  (canvasHeight / totalThickness layupData)%num.

Definition widthPercent (length : Q) : num :=
  ((length / 180) * 100)%num.

(** The first two statements of [drawLayer]. *)
Definition layerHeight (layupData : list Layer) (layer : Layer) : num :=
  (thickness layer * thicknessScale layupData)%num.

Definition layerWidth (length : Q) : num :=
  ((widthPercent length / 100) * (canvasWidth - 70))%num.

(** [drawNext(index)] with [index = n - 1]: the calls of [drawLayer], each
    with its layer and the [yOffset] it is given.  The callback adds the
    height of the layer to [yOffset] and goes on with [index - 1]. *)
Fixpoint drawNext (layupData : list Layer) (n : nat) (yOffset : num)
    : list (Layer * num) :=
  match n with
  | O => []
  | S index =>
      match layupData !! index with
      | Some layer =>
          (layer, yOffset)
            :: drawNext layupData index
                 (yOffset + thickness layer * thicknessScale layupData)%num
      | None => []  (* not reached: [index < layupData.length] *)
      end
  end.

Definition drawLayup (layupData : list Layer) : list (Layer * num) :=
  drawNext layupData (length layupData) 0.

End LayupDrawer.

(** ** The shear force at the interior support in binary64

    The statements of the shear-force closure of the second revision,
    with the operations of binary64, for a position [x === L1] that is
    not 0: the two [y] of the pair and [R2].  [cube] is the value of
    [Math.pow(L1, 3)]. *)

Module Binary64.

Import PrimFloat.
Local Open Scope float_scope.

Definition shear_pair (w L1 L2 cube : float) : float * float * float :=
  let wl1 := w * L1 in
  let wl2 := w * L2 in
  let M1 := - ((w * cube + w * cube) / (8 * (L1 + L2))) in
  let R1 := M1 / L1 + wl1 / 2 in
  let R3 := M1 / L2 + wl2 / 2 in
  let R2 := wl1 + wl2 - R1 - R3 in
  (R1 - w * L1, R1 + R2 - w * L1, R2).

(** Spans 1 and 2, load 1; [Math.pow(1, 3)] is 1. *)
Definition shear_pair_1_2_1 : float * float * float :=
  shear_pair 1 1 2 1.

(** The interior reaction of that beam in exact arithmetic, 13/8. *)
Definition thirteen_eighths : float := 1.625.

Definition jump (p : float * float * float) : float :=
  let '(y1, y2, _) := p in y2 - y1.

Definition interior_reaction (p : float * float * float) : float :=
  let '(_, _, R2) := p in R2.

End Binary64.

(** A position at which an equation returns an object or an array of two
    objects: there the callback of [plot] finds a [y] to read. *)
Definition plottable (equation : jsval -> result) (x : Q) : Prop :=
  (exists o, equation (JNum x) = RObject o)
  \/ (exists o1 o2, equation (JNum x) = RArray [o1; o2]).

(** ** Comparisons and arithmetic on finite numbers *)

Lemma Qle_bool_true (a b : Q) : a <= b -> Qle_bool a b = true.
Proof. apply Qle_bool_iff. Qed.

Lemma Qle_bool_false (a b : Q) : b < a -> Qle_bool a b = false.
Proof.
  intros Hlt. destruct (Qle_bool a b) eqn:E; [|reflexivity].
  apply Qle_bool_iff in E. exfalso. exact (Qlt_not_le _ _ Hlt E).
Qed.

Lemma Qeq_bool_true (a b : Q) : a == b -> Qeq_bool a b = true.
Proof. apply Qeq_bool_iff. Qed.

Lemma Qeq_bool_false (a b : Q) : ~ a == b -> Qeq_bool a b = false.
Proof.
  intros Hne. destruct (Qeq_bool a b) eqn:E; [|reflexivity].
  apply Qeq_bool_iff in E. contradiction.
Qed.

Lemma ndiv_Fin (p q : Q) : ~ q == 0 -> (Fin p / Fin q)%num = Fin (p / q).
Proof. intros Hq. cbn. now rewrite Qeq_bool_false. Qed.

(** Division by a literal. *)
Ltac literal_nonzero :=
  let H := fresh in intro H; vm_compute in H; discriminate H.

Ltac ndiv_literal := rewrite !ndiv_Fin by literal_nonzero.

Lemma jsval_equiv_refl (x : jsval) : jsval_equiv x x.
Proof. destruct x; cbn; auto. reflexivity. Qed.

(** A position that passes a range test converts to a finite number. *)
Lemma js_ge_Fin (x : jsval) (b : Q) :
  js_ge x b = true -> exists q, ToNumber x = Fin q /\ b <= q.
Proof.
  unfold js_ge. destruct (ToNumber x) as [q|]; [|discriminate].
  intros H. exists q. split; [reflexivity|]. now apply Qle_bool_iff.
Qed.

(** ** The simply-supported analyzer *)

(** C1.  On a simply-supported beam of span [L], at every position [x]
    with [0 <= x <= L], the bending-moment equation of either revision
    returns the point [{x, y}] with [y = w * x * (L - x) / 2]. *)
Theorem simplySupported_bending_moment (beam : Beam) (load x : Q) :
  0 <= x <= primarySpan beam ->
  (exists y : Q,
      V1.simplySupported.getBendingMomentEquation beam load (JNum x)
        = RObject (Point (JNum x) (YNum (Fin y)))
      /\ y == load * x * (primarySpan beam - x) / 2)
  /\
  (exists y : Q,
      V2.simplySupported.getBendingMomentEquation beam load (JNum x)
        = RObject (Point (JNum x) (YNum (Fin y)))
      /\ y == load * x * (primarySpan beam - x) / 2).
Proof.
  intros [H0 HL].
  unfold V1.simplySupported.getBendingMomentEquation,
         V2.simplySupported.getBendingMomentEquation, js_ge, js_le.
  cbn. rewrite (Qle_bool_true _ _ H0), (Qle_bool_true _ _ HL). cbn.
  split; eexists; (split; [reflexivity|]); field.
Qed.

(** The scenario of the specification: span 4, load 10, position 2,
    moment 20. *)
Lemma simplySupported_bending_moment_witness :
  let beam := mkBeam 4 0 (mkMaterial "timber" {[ "EI"%string := 1 ]}) in
  0 <= 2 <= primarySpan beam
  /\ (exists y : Q,
        V1.simplySupported.getBendingMomentEquation beam 10 (JNum 2)
          = RObject (Point (JNum 2) (YNum (Fin y)))
        /\ y == 20)
  /\ (exists y : Q,
        V2.simplySupported.getBendingMomentEquation beam 10 (JNum 2)
          = RObject (Point (JNum 2) (YNum (Fin y)))
        /\ y == 20).
Proof.
  intros beam.
  assert (Hx : 0 <= 2 <= primarySpan beam) by (split; vm_compute; discriminate).
  split; [exact Hx|].
  destruct (simplySupported_bending_moment beam 10 2 Hx)
    as [[y1 [E1 Hy1]] [y2 [E2 Hy2]]].
  split; [exists y1 | exists y2]; (split; [assumption|]).
  - rewrite Hy1. reflexivity.
  - rewrite Hy2. reflexivity.
Defined.

(** C9.  The two revisions of the simply-supported bending moment,
    [(w * x * (L - x)) / 2] and [((w * x) / 2) * (L - x)], return the same
    value for every beam, load and position. *)
Theorem simplySupported_bending_moment_revisions_agree
    (beam : Beam) (load : Q) (x : jsval) :
  result_equiv
    (V1.simplySupported.getBendingMomentEquation beam load x)
    (V2.simplySupported.getBendingMomentEquation beam load x).
Proof.
  unfold V1.simplySupported.getBendingMomentEquation,
         V2.simplySupported.getBendingMomentEquation.
  cbn zeta.
  destruct (js_ge x 0 && js_le x (primarySpan beam)) eqn:Hrange.
  - apply andb_prop in Hrange as [Hge _].
    apply js_ge_Fin in Hge as [q [-> _]].
    cbn -[ndiv]. ndiv_literal. cbn.
    split; [apply jsval_equiv_refl | field].
  - cbn. split; [apply jsval_equiv_refl | exact I].
Qed.

(** C10.  The simply-supported analyzer does not read
    [beam.secondarySpan]: two beams with the same primary span and the
    same material get identical results from each of the three equations,
    at every load and position, in both revisions. *)
Theorem simplySupported_ignores_secondarySpan
    (b1 b2 : Beam) (load : Q) (x : jsval) :
  primarySpan b1 = primarySpan b2 ->
  material b1 = material b2 ->
  forall a : Analyzer,
    a = V1.simplySupported.analyzer \/ a = V2.simplySupported.analyzer ->
    getDeflectionEquation a b1 load x = getDeflectionEquation a b2 load x
    /\ getBendingMomentEquation a b1 load x = getBendingMomentEquation a b2 load x
    /\ getShearForceEquation a b1 load x = getShearForceEquation a b2 load x.
Proof.
  intros HL Hm a [-> | ->]; cbn;
    unfold V1.simplySupported.getDeflectionEquation,
           V1.simplySupported.getBendingMomentEquation,
           V1.simplySupported.getShearForceEquation,
           V2.simplySupported.getDeflectionEquation,
           V2.simplySupported.getBendingMomentEquation,
           V2.simplySupported.getShearForceEquation;
    rewrite HL, Hm; repeat split; reflexivity.
Qed.

(** Spans 4 and 0 against spans 4 and 7, load 10, position 1. *)
Lemma simplySupported_ignores_secondarySpan_witness :
  let m := mkMaterial "timber" {[ "EI"%string := 1; "j2"%string := 2 ]} in
  let b1 := mkBeam 4 0 m in
  let b2 := mkBeam 4 7 m in
  secondarySpan b1 <> secondarySpan b2
  /\ forall a : Analyzer,
       a = V1.simplySupported.analyzer \/ a = V2.simplySupported.analyzer ->
       getDeflectionEquation a b1 10 (JNum 1) = getDeflectionEquation a b2 10 (JNum 1)
       /\ getBendingMomentEquation a b1 10 (JNum 1)
            = getBendingMomentEquation a b2 10 (JNum 1)
       /\ getShearForceEquation a b1 10 (JNum 1)
            = getShearForceEquation a b2 10 (JNum 1).
Proof.
  intros m b1 b2. split; [discriminate|].
  apply (simplySupported_ignores_secondarySpan b1 b2 10 (JNum 1));
    reflexivity.
Defined.

(** ** The two-span analyzer: support reactions *)

Lemma Qpos_nonzero (q : Q) : 0 < q -> ~ q == 0.
Proof. intros Hq E. rewrite E in Hq. exact (Qlt_irrefl _ Hq). Qed.

Ltac nonzero :=
  first [ literal_nonzero | apply Qpos_nonzero; lra ].

Ltac num_eval :=
  repeat first
    [ rewrite ndiv_Fin by nonzero
    | progress cbn [nadd nsub nmul nopp npow] ].

(** With positive spans the interior moment and the reactions are finite
    numbers, given by the formulas of the source. *)
Lemma reactions_finite (L1 L2 w : Q) :
  0 < L1 -> 0 < L2 ->
  exists m1 r1 r3 r2 : Q,
    V2.twoSpanUnequal.reactions L1 L2 w
      = V2.twoSpanUnequal.mkReactions (Fin m1) (Fin r1) (Fin r3) (Fin r2)
    /\ m1 == - ((w * L1 ^ 3 + w * L1 ^ 3) / (8 * (L1 + L2)))
    /\ r1 == m1 / L1 + w * L1 / 2
    /\ r3 == m1 / L2 + w * L2 / 2
    /\ r2 == w * L1 + w * L2 - r1 - r3.
Proof.
  intros H1 H2. unfold V2.twoSpanUnequal.reactions. cbn zeta.
  num_eval.
  do 4 eexists. split; [reflexivity|].
  repeat split; try reflexivity.
  field. intros E. lra.
Qed.

(** C3.  With positive spans the three reactions of the two-span analyzer
    balance the whole load: [R1 + R2 + R3 = w * (L1 + L2)]. *)
Theorem twoSpanUnequal_global_equilibrium (beam : Beam) (load : Q) :
  0 < primarySpan beam ->
  0 < secondarySpan beam ->
  let r := V2.twoSpanUnequal.reactions (primarySpan beam) (secondarySpan beam) load in
  exists r1 r2 r3 : Q,
    V2.twoSpanUnequal.R1 r = Fin r1
    /\ V2.twoSpanUnequal.R2 r = Fin r2
    /\ V2.twoSpanUnequal.R3 r = Fin r3
    /\ r1 + r2 + r3 == load * (primarySpan beam + secondarySpan beam).
Proof.
  intros H1 H2 r. subst r.
  destruct (reactions_finite _ _ load H1 H2)
    as (m1 & r1 & r3 & r2 & -> & _ & _ & _ & Hr2).
  exists r1, r2, r3. cbn. repeat split.
  rewrite Hr2. ring.
Qed.

(** The scenario of the specification: spans 3 and 2, load 5, total 25. *)
Lemma twoSpanUnequal_global_equilibrium_witness :
  let beam := mkBeam 3 2 (mkMaterial "timber" {[ "EI"%string := 1 ]}) in
  let r := V2.twoSpanUnequal.reactions 3 2 5 in
  0 < primarySpan beam
  /\ 0 < secondarySpan beam
  /\ exists r1 r2 r3 : Q,
       V2.twoSpanUnequal.R1 r = Fin r1
       /\ V2.twoSpanUnequal.R2 r = Fin r2
       /\ V2.twoSpanUnequal.R3 r = Fin r3
       /\ r1 + r2 + r3 == 25.
Proof.
  intros beam r.
  assert (H1 : 0 < primarySpan beam) by reflexivity.
  assert (H2 : 0 < secondarySpan beam) by reflexivity.
  split; [exact H1|]. split; [exact H2|].
  destruct (twoSpanUnequal_global_equilibrium beam 5 H1 H2)
    as (r1 & r2 & r3 & E1 & E2 & E3 & Hsum).
  exists r1, r2, r3. split; [exact E1|]. split; [exact E2|]. split; [exact E3|].
  rewrite Hsum. reflexivity.
Defined.

(** ** The two-span analyzer: bending moment and shear force *)

Ltac decide_cmp :=
  repeat match goal with
  | |- context [Qeq_bool ?a ?b] =>
      first [ rewrite (Qeq_bool_true a b) by lra
            | rewrite (Qeq_bool_false a b) by (intro; lra) ]
  | |- context [Qle_bool ?a ?b] =>
      first [ rewrite (Qle_bool_true a b) by lra
            | rewrite (Qle_bool_false a b) by lra ]
  end.

Ltac branch :=
  unfold js_strict_eq, js_ge, js_le, js_gt, js_lt;
  cbn [ToNumber typeof String.eqb Ascii.eqb Bool.eqb negb];
  decide_cmp;
  cbn [negb andb].

(** C2, as amended.  With positive spans, at a position strictly inside
    the second span the bending-moment equation of the second revision
    returns the point [{x, y}] with [y = R1 * x + R2 * (x - L1) - w * x^2 / 2],
    [R1] and [R2] being the reactions it computes; the equation of the
    first revision computes no reaction and returns the point with
    [y = -(w * (x - L1) * (L2 - (x - L1))) / 2]. *)
Theorem twoSpanUnequal_bending_moment_second_span
    (beam : Beam) (load x : Q) :
  0 < primarySpan beam ->
  0 < secondarySpan beam ->
  primarySpan beam < x < primarySpan beam + secondarySpan beam ->
  let r := V2.twoSpanUnequal.reactions (primarySpan beam) (secondarySpan beam) load in
  (exists r1 r2 y : Q,
     V2.twoSpanUnequal.R1 r = Fin r1
     /\ V2.twoSpanUnequal.R2 r = Fin r2
     /\ V2.twoSpanUnequal.getBendingMomentEquation beam load (JNum x)
          = RObject (Point (JNum x) (YNum (Fin y)))
     /\ y == r1 * x + r2 * (x - primarySpan beam) - load * x ^ 2 / 2)
  /\ (exists y : Q,
        V1.twoSpanUnequal.getBendingMomentEquation beam load (JNum x)
          = RObject (Point (JNum x) (YNum (Fin y)))
        /\ y == - (load * (x - primarySpan beam)
                   * (secondarySpan beam - (x - primarySpan beam))) / 2).
Proof.
  intros H1 H2 [Hlo Hhi] r. subst r. split.
  - unfold V2.twoSpanUnequal.getBendingMomentEquation. cbn zeta.
    destruct (reactions_finite _ _ load H1 H2)
      as (m1 & r1 & r3 & r2 & -> & _ & _ & _ & _).
    cbn [V2.twoSpanUnequal.R1 V2.twoSpanUnequal.R2].
    branch. num_eval.
    exists r1, r2. eexists.
    split; [reflexivity|]. split; [reflexivity|]. split; [reflexivity|]. field.
  - unfold V1.twoSpanUnequal.getBendingMomentEquation. cbn zeta.
    branch. num_eval.
    eexists. split; reflexivity.
Qed.

(** Spans 3 and 2, load 5, position 4. *)
Lemma twoSpanUnequal_bending_moment_second_span_witness :
  let beam := mkBeam 3 2 (mkMaterial "timber" {[ "EI"%string := 1 ]}) in
  let r := V2.twoSpanUnequal.reactions 3 2 5 in
  (0 < primarySpan beam /\ 0 < secondarySpan beam
   /\ primarySpan beam < 4 < primarySpan beam + secondarySpan beam)
  /\ (exists r1 r2 y : Q,
        V2.twoSpanUnequal.R1 r = Fin r1
        /\ V2.twoSpanUnequal.R2 r = Fin r2
        /\ V2.twoSpanUnequal.getBendingMomentEquation beam 5 (JNum 4)
             = RObject (Point (JNum 4) (YNum (Fin y)))
        /\ y == r1 * 4 + r2 * (4 - 3) - 5 * 4 ^ 2 / 2)
  /\ (exists y : Q,
        V1.twoSpanUnequal.getBendingMomentEquation beam 5 (JNum 4)
          = RObject (Point (JNum 4) (YNum (Fin y)))
        /\ y == - (5 * (4 - 3) * (2 - (4 - 3))) / 2).
Proof.
  intros beam r.
  assert (H1 : 0 < primarySpan beam) by reflexivity.
  assert (H2 : 0 < secondarySpan beam) by reflexivity.
  assert (Hx : primarySpan beam < 4 < primarySpan beam + secondarySpan beam)
    by (split; reflexivity).
  split; [auto|].
  exact (twoSpanUnequal_bending_moment_second_span beam 5 4 H1 H2 Hx).
Defined.

(** C2 as first stated fails on the first revision.  With spans 3 and 2
    and load 5 its equation returns -5/2 at [x = 4], where the reactions
    of the second revision give -7/8; and no pair of constants [R1], [R2]
    at all fits its values on the second span, whose [x^2] coefficient is
    [+ w / 2]. *)
Lemma twoSpanUnequal_bending_moment_first_revision_differs :
  let beam := mkBeam 3 2 (mkMaterial "timber" {[ "EI"%string := 1 ]}) in
  let r := V2.twoSpanUnequal.reactions 3 2 5 in
  ~ (exists r1 r2 y : Q,
       V2.twoSpanUnequal.R1 r = Fin r1
       /\ V2.twoSpanUnequal.R2 r = Fin r2
       /\ V1.twoSpanUnequal.getBendingMomentEquation beam 5 (JNum 4)
            = RObject (Point (JNum 4) (YNum (Fin y)))
       /\ y == r1 * 4 + r2 * (4 - 3) - 5 * 4 ^ 2 / 2)
  /\ ~ (exists r1 r2 : Q,
          forall x : Q, 3 < x < 5 ->
          exists y : Q,
            V1.twoSpanUnequal.getBendingMomentEquation beam 5 (JNum x)
              = RObject (Point (JNum x) (YNum (Fin y)))
            /\ y == r1 * x + r2 * (x - 3) - 5 * x ^ 2 / 2).
Proof.
  intros beam r. split.
  - intros (r1 & r2 & y & E1 & E2 & Ey & Hy).
    vm_compute in E1, E2, Ey.
    injection E1 as <-. injection E2 as <-. injection Ey as <-.
    vm_compute in Hy. discriminate Hy.
  - intros (r1 & r2 & Hfit).
    destruct (Hfit (7 # 2)) as (ya & Ea & Ha); [split; reflexivity|].
    destruct (Hfit 4) as (yb & Eb & Hb); [split; reflexivity|].
    destruct (Hfit (9 # 2)) as (yc & Ec & Hc); [split; reflexivity|].
    vm_compute in Ea, Eb, Ec.
    injection Ea as <-. injection Eb as <-. injection Ec as <-.
    assert (Ha' : - (15 # 8) == r1 * (7 # 2) + r2 * (1 # 2) - (245 # 8))
      by (etransitivity; [|etransitivity; [exact Ha|]]; [reflexivity | field]).
    assert (Hb' : - (5 # 2) == r1 * 4 + r2 * 1 - 40)
      by (etransitivity; [|etransitivity; [exact Hb|]]; [reflexivity | field]).
    assert (Hc' : - (15 # 8) == r1 * (9 # 2) + r2 * (3 # 2) - (405 # 8))
      by (etransitivity; [|etransitivity; [exact Hc|]]; [reflexivity | field]).
    lra.
Qed.

(** C4, as amended.  With positive spans, at the interior support
    [x = L1] the shear-force equation of the second revision returns two
    points, whose values are [R1 - w * L1] and [R1 + R2 - w * L1]; in
    exact arithmetic the second exceeds the first by the interior
    reaction [R2].  The equation of the first revision returns a single
    point there, with [y = w * (L1 / 2 - x)]. *)
Theorem twoSpanUnequal_shear_jump (beam : Beam) (load x : Q) :
  0 < primarySpan beam ->
  0 < secondarySpan beam ->
  x == primarySpan beam ->
  let r := V2.twoSpanUnequal.reactions (primarySpan beam) (secondarySpan beam) load in
  (exists r1 r2 y1 y2 : Q,
     V2.twoSpanUnequal.R1 r = Fin r1
     /\ V2.twoSpanUnequal.R2 r = Fin r2
     /\ V2.twoSpanUnequal.getShearForceEquation beam load (JNum x)
          = RArray [ Point (JNum x) (YNum (Fin y1));
                     Point (JNum x) (YNum (Fin y2)) ]
     /\ y1 == r1 - load * primarySpan beam
     /\ y2 == r1 + r2 - load * primarySpan beam
     /\ y2 - y1 == r2)
  /\ (exists y : Q,
        V1.twoSpanUnequal.getShearForceEquation beam load (JNum x)
          = RObject (Point (JNum x) (YNum (Fin y)))
        /\ y == load * (primarySpan beam / 2 - x)).
Proof.
  intros H1 H2 Hx r. subst r. split.
  - unfold V2.twoSpanUnequal.getShearForceEquation. cbn zeta.
    destruct (reactions_finite _ _ load H1 H2)
      as (m1 & r1 & r3 & r2 & -> & _ & _ & _ & _).
    cbn [V2.twoSpanUnequal.R1 V2.twoSpanUnequal.R2].
    branch. num_eval.
    exists r1, r2. do 2 eexists.
    split; [reflexivity|]. split; [reflexivity|]. split; [reflexivity|].
    split; [reflexivity|]. split; [reflexivity|]. ring.
  - unfold V1.twoSpanUnequal.getShearForceEquation. cbn zeta.
    branch. num_eval.
    eexists. split; reflexivity.
Qed.

(** Spans 3 and 2, load 5, position 3. *)
Lemma twoSpanUnequal_shear_jump_witness :
  let beam := mkBeam 3 2 (mkMaterial "timber" {[ "EI"%string := 1 ]}) in
  let r := V2.twoSpanUnequal.reactions 3 2 5 in
  (0 < primarySpan beam /\ 0 < secondarySpan beam /\ 3 == primarySpan beam)
  /\ (exists r1 r2 y1 y2 : Q,
        V2.twoSpanUnequal.R1 r = Fin r1
        /\ V2.twoSpanUnequal.R2 r = Fin r2
        /\ V2.twoSpanUnequal.getShearForceEquation beam 5 (JNum 3)
             = RArray [ Point (JNum 3) (YNum (Fin y1));
                        Point (JNum 3) (YNum (Fin y2)) ]
        /\ y1 == r1 - 5 * 3
        /\ y2 == r1 + r2 - 5 * 3
        /\ y2 - y1 == r2)
  /\ (exists y : Q,
        V1.twoSpanUnequal.getShearForceEquation beam 5 (JNum 3)
          = RObject (Point (JNum 3) (YNum (Fin y)))
        /\ y == 5 * (3 / 2 - 3)).
Proof.
  intros beam r.
  assert (H1 : 0 < primarySpan beam) by reflexivity.
  assert (H2 : 0 < secondarySpan beam) by reflexivity.
  assert (Hx : 3 == primarySpan beam) by reflexivity.
  split; [auto|].
  exact (twoSpanUnequal_shear_jump beam 5 3 H1 H2 Hx).
Defined.

(** C4 as first stated fails on the first revision: with spans 3 and 2
    and load 5 its shear-force equation returns at [x = L1 = 3] the single
    point [{x: 3, y: -15/2}], not a sequence of two points. *)
Lemma twoSpanUnequal_shear_first_revision_single_point :
  let beam := mkBeam 3 2 (mkMaterial "timber" {[ "EI"%string := 1 ]}) in
  (exists y : Q,
     V1.twoSpanUnequal.getShearForceEquation beam 5 (JNum 3)
       = RObject (Point (JNum 3) (YNum (Fin y)))
     /\ y == - (15 # 2))
  /\ ~ (exists o1 o2 : object,
          V1.twoSpanUnequal.getShearForceEquation beam 5 (JNum 3)
            = RArray [o1; o2]).
Proof.
  intros beam. split.
  - eexists. split; [vm_compute; reflexivity | reflexivity].
  - intros (o1 & o2 & E). vm_compute in E. discriminate E.
Qed.

(** In binary64 the jump of the second revision can miss [R2] by
    rounding: with spans 1 and 2 and load 1 the two values of the pair
    are 1.6249999999999998 apart, and [R2] is 1.625. *)
Lemma shear_jump_binary64_rounding :
  PrimFloat.eqb (Binary64.interior_reaction Binary64.shear_pair_1_2_1)
                Binary64.thirteen_eighths = true
  /\ PrimFloat.eqb (Binary64.jump Binary64.shear_pair_1_2_1)
                   (Binary64.interior_reaction Binary64.shear_pair_1_2_1) = false
  /\ PrimFloat.ltb (Binary64.jump Binary64.shear_pair_1_2_1)
                   (Binary64.interior_reaction Binary64.shear_pair_1_2_1) = true.
Proof. vm_compute. repeat split. Qed.

(** C8.  With positive spans, the two points the bending-moment equation
    returns at the interior support [x = L1] carry the same value,
    [R1 * L1 - w * L1^2 / 2]: the pair shows no jump. *)
Theorem twoSpanUnequal_bending_moment_no_jump (beam : Beam) (load x : Q) :
  0 < primarySpan beam ->
  0 < secondarySpan beam ->
  x == primarySpan beam ->
  let r := V2.twoSpanUnequal.reactions (primarySpan beam) (secondarySpan beam) load in
  exists r1 y1 y2 : Q,
    V2.twoSpanUnequal.R1 r = Fin r1
    /\ V2.twoSpanUnequal.getBendingMomentEquation beam load (JNum x)
         = RArray [ Point (JNum x) (YNum (Fin y1));
                    Point (JNum x) (YNum (Fin y2)) ]
    /\ y1 == y2
    /\ y1 == r1 * primarySpan beam - load * primarySpan beam ^ 2 / 2.
Proof.
  intros H1 H2 Hx r. subst r.
  unfold V2.twoSpanUnequal.getBendingMomentEquation. cbn zeta.
  destruct (reactions_finite _ _ load H1 H2)
    as (m1 & r1 & r3 & r2 & -> & _ & _ & _ & _).
  cbn [V2.twoSpanUnequal.R1 V2.twoSpanUnequal.R2].
  branch. num_eval.
  exists r1. do 2 eexists. repeat split; field.
Qed.

(** Spans 3 and 2, load 5, position 3. *)
Lemma twoSpanUnequal_bending_moment_no_jump_witness :
  let beam := mkBeam 3 2 (mkMaterial "timber" {[ "EI"%string := 1 ]}) in
  let r := V2.twoSpanUnequal.reactions 3 2 5 in
  (0 < primarySpan beam /\ 0 < secondarySpan beam /\ 3 == primarySpan beam)
  /\ exists r1 y1 y2 : Q,
       V2.twoSpanUnequal.R1 r = Fin r1
       /\ V2.twoSpanUnequal.getBendingMomentEquation beam 5 (JNum 3)
            = RArray [ Point (JNum 3) (YNum (Fin y1));
                       Point (JNum 3) (YNum (Fin y2)) ]
       /\ y1 == y2
       /\ y1 == r1 * 3 - 5 * 3 ^ 2 / 2.
Proof.
  intros beam r.
  assert (H1 : 0 < primarySpan beam) by reflexivity.
  assert (H2 : 0 < secondarySpan beam) by reflexivity.
  assert (Hx : 3 == primarySpan beam) by reflexivity.
  split; [auto|].
  exact (twoSpanUnequal_bending_moment_no_jump beam 5 3 H1 H2 Hx).
Defined.

(** ** The facade *)

(** Which property [analyzer[condition]] is, in terms of the tag. *)
Lemma get_analyzer_V1 (condition : string) :
  get V1.BeamAnalysis.analyzer condition =
    if decide (condition = "simply-supported"%string)
    then Own V1.simplySupported.analyzer
    else if decide (condition = "two-span-unequal"%string)
    then Own V1.twoSpanUnequal.analyzer
    else if bool_decide (condition ∈ Object_prototype) then Inherited
    else Absent.
Proof.
  unfold get, V1.BeamAnalysis.analyzer.
  destruct (decide (condition = "simply-supported"%string)) as [->|Hss].
  { now rewrite lookup_insert_eq. }
  rewrite lookup_insert_ne by congruence.
  destruct (decide (condition = "two-span-unequal"%string)) as [->|Hts].
  { now rewrite lookup_singleton_eq. }
  rewrite lookup_singleton_ne by congruence. reflexivity.
Qed.

Lemma get_analyzer_V2 (condition : string) :
  get V2.BeamAnalysis.analyzer condition =
    if decide (condition = "simply-supported"%string)
    then Own V2.simplySupported.analyzer
    else if decide (condition = "two-span-unequal"%string)
    then Own V2.twoSpanUnequal.analyzer
    else if bool_decide (condition ∈ Object_prototype) then Inherited
    else Absent.
Proof.
  unfold get, V2.BeamAnalysis.analyzer.
  destruct (decide (condition = "simply-supported"%string)) as [->|Hss].
  { now rewrite lookup_insert_eq. }
  rewrite lookup_insert_ne by congruence.
  destruct (decide (condition = "two-span-unequal"%string)) as [->|Hts].
  { now rewrite lookup_singleton_eq. }
  rewrite lookup_singleton_ne by congruence. reflexivity.
Qed.

(** A tag that is neither registered nor the name of a property of
    [Object.prototype] is rejected with the error "Invalid condition", by
    each of the three methods of both revisions. *)
Theorem facade_rejects_unknown_tag (beam : Beam) (load : Q) (condition : string) :
  condition <> "simply-supported"%string ->
  condition <> "two-span-unequal"%string ->
  condition ∉ Object_prototype ->
  V1.BeamAnalysis.getDeflection beam load condition = Throw (Error "Invalid condition")
  /\ V1.BeamAnalysis.getBendingMoment beam load condition = Throw (Error "Invalid condition")
  /\ V1.BeamAnalysis.getShearForce beam load condition = Throw (Error "Invalid condition")
  /\ V2.BeamAnalysis.getDeflection beam load condition = Throw (Error "Invalid condition")
  /\ V2.BeamAnalysis.getBendingMoment beam load condition = Throw (Error "Invalid condition")
  /\ V2.BeamAnalysis.getShearForce beam load condition = Throw (Error "Invalid condition").
Proof.
  intros Hss Hts Hproto.
  unfold V1.BeamAnalysis.getDeflection, V1.BeamAnalysis.getBendingMoment,
         V1.BeamAnalysis.getShearForce, V2.BeamAnalysis.getDeflection,
         V2.BeamAnalysis.getBendingMoment, V2.BeamAnalysis.getShearForce.
  rewrite get_analyzer_V1, get_analyzer_V2.
  rewrite !decide_False by assumption.
  rewrite bool_decide_eq_false_2 by assumption.
  repeat split.
Qed.

Lemma facade_rejects_unknown_tag_witness :
  let beam := mkBeam 4 0 (mkMaterial "timber" {[ "EI"%string := 1 ]}) in
  ("unknown"%string <> "simply-supported"%string
   /\ "unknown"%string <> "two-span-unequal"%string
   /\ "unknown"%string ∉ Object_prototype)
  /\ V1.BeamAnalysis.getDeflection beam 10 "unknown" = Throw (Error "Invalid condition")
  /\ V1.BeamAnalysis.getBendingMoment beam 10 "unknown" = Throw (Error "Invalid condition")
  /\ V1.BeamAnalysis.getShearForce beam 10 "unknown" = Throw (Error "Invalid condition")
  /\ V2.BeamAnalysis.getDeflection beam 10 "unknown" = Throw (Error "Invalid condition")
  /\ V2.BeamAnalysis.getBendingMoment beam 10 "unknown" = Throw (Error "Invalid condition")
  /\ V2.BeamAnalysis.getShearForce beam 10 "unknown" = Throw (Error "Invalid condition").
Proof.
  intros beam.
  assert (Hss : "unknown"%string <> "simply-supported"%string) by discriminate.
  assert (Hts : "unknown"%string <> "two-span-unequal"%string) by discriminate.
  assert (Hp : "unknown"%string ∉ Object_prototype)
    by (apply (proj1 (bool_decide_eq_false _)); vm_compute; reflexivity).
  split; [auto|].
  exact (facade_rejects_unknown_tag beam 10 "unknown" Hss Hts Hp).
Defined.

(** A registered tag never raises: the facade returns the bundle whose
    equation is the one of the analyzer registered under the tag. *)
Theorem facade_accepts_registered_tag (beam : Beam) (load : Q) :
  V2.BeamAnalysis.getDeflection beam load "simply-supported"
    = Return (V2.mkAnalysis beam load
                (V2.simplySupported.getDeflectionEquation beam load)
                "simply-supported")
  /\ V2.BeamAnalysis.getBendingMoment beam load "simply-supported"
    = Return (V2.mkAnalysis beam load
                (V2.simplySupported.getBendingMomentEquation beam load)
                "simply-supported")
  /\ V2.BeamAnalysis.getShearForce beam load "simply-supported"
    = Return (V2.mkAnalysis beam load
                (V2.simplySupported.getShearForceEquation beam load)
                "simply-supported")
  /\ V2.BeamAnalysis.getDeflection beam load "two-span-unequal"
    = Return (V2.mkAnalysis beam load
                (V2.twoSpanUnequal.getDeflectionEquation beam load)
                "two-span-unequal")
  /\ V2.BeamAnalysis.getBendingMoment beam load "two-span-unequal"
    = Return (V2.mkAnalysis beam load
                (V2.twoSpanUnequal.getBendingMomentEquation beam load)
                "two-span-unequal")
  /\ V2.BeamAnalysis.getShearForce beam load "two-span-unequal"
    = Return (V2.mkAnalysis beam load
                (V2.twoSpanUnequal.getShearForceEquation beam load)
                "two-span-unequal").
Proof.
  unfold V2.BeamAnalysis.getDeflection, V2.BeamAnalysis.getBendingMoment,
         V2.BeamAnalysis.getShearForce.
  rewrite !get_analyzer_V2. repeat split.
Qed.

(** C5, at a failing input.  The tag "constructor" is not registered, yet
    [analyzer["constructor"]] is the inherited [Object.prototype.constructor],
    which is truthy: the guard lets it through and the call of the missing
    equation method throws a [TypeError], not the error
    "Invalid condition". *)
Theorem facade_inherited_tag_throws_TypeError (beam : Beam) (load : Q) :
  V1.BeamAnalysis.getDeflection beam load "constructor" = Throw TypeError
  /\ V1.BeamAnalysis.getBendingMoment beam load "constructor" = Throw TypeError
  /\ V1.BeamAnalysis.getShearForce beam load "constructor" = Throw TypeError
  /\ V2.BeamAnalysis.getDeflection beam load "constructor" = Throw TypeError
  /\ V2.BeamAnalysis.getBendingMoment beam load "constructor" = Throw TypeError
  /\ V2.BeamAnalysis.getShearForce beam load "constructor" = Throw TypeError.
Proof.
  unfold V1.BeamAnalysis.getDeflection, V1.BeamAnalysis.getBendingMoment,
         V1.BeamAnalysis.getShearForce, V2.BeamAnalysis.getDeflection,
         V2.BeamAnalysis.getBendingMoment, V2.BeamAnalysis.getShearForce.
  rewrite get_analyzer_V1, get_analyzer_V2. repeat split.
Qed.

(** ** Positions outside the beam *)

(** Outside [[0, L]] the simply-supported equations return [{x, y: null}]:
    all three of the first revision, the bending moment and the shear
    force of the second. *)
Theorem simplySupported_out_of_domain (beam : Beam) (load x : Q) :
  x < 0 \/ primarySpan beam < x ->
  V1.simplySupported.getDeflectionEquation beam load (JNum x)
    = RObject (Point (JNum x) YNull)
  /\ V1.simplySupported.getBendingMomentEquation beam load (JNum x)
    = RObject (Point (JNum x) YNull)
  /\ V1.simplySupported.getShearForceEquation beam load (JNum x)
    = RObject (Point (JNum x) YNull)
  /\ V2.simplySupported.getBendingMomentEquation beam load (JNum x)
    = RObject (Point (JNum x) YNull)
  /\ V2.simplySupported.getShearForceEquation beam load (JNum x)
    = RObject (Point (JNum x) YNull).
Proof.
  intros Hout.
  unfold V1.simplySupported.getDeflectionEquation,
         V1.simplySupported.getBendingMomentEquation,
         V1.simplySupported.getShearForceEquation,
         V2.simplySupported.getBendingMomentEquation,
         V2.simplySupported.getShearForceEquation.
  cbn zeta.
  assert (Hc : js_ge (JNum x) 0 && js_le (JNum x) (primarySpan beam) = false).
  { unfold js_ge, js_le. cbn [ToNumber]. destruct Hout as [Hneg | Hpast].
    - rewrite (Qle_bool_false 0 x) by assumption. reflexivity.
    - rewrite (Qle_bool_false x (primarySpan beam)) by assumption.
      apply andb_false_r. }
  rewrite Hc. repeat split.
Qed.

Lemma simplySupported_out_of_domain_witness :
  let beam := mkBeam 4 0 (mkMaterial "timber" {[ "EI"%string := 1 ]}) in
  (5 < 0 \/ primarySpan beam < 5)
  /\ V1.simplySupported.getDeflectionEquation beam 10 (JNum 5)
       = RObject (Point (JNum 5) YNull)
  /\ V1.simplySupported.getBendingMomentEquation beam 10 (JNum 5)
       = RObject (Point (JNum 5) YNull)
  /\ V1.simplySupported.getShearForceEquation beam 10 (JNum 5)
       = RObject (Point (JNum 5) YNull)
  /\ V2.simplySupported.getBendingMomentEquation beam 10 (JNum 5)
       = RObject (Point (JNum 5) YNull)
  /\ V2.simplySupported.getShearForceEquation beam 10 (JNum 5)
       = RObject (Point (JNum 5) YNull).
Proof.
  intros beam.
  assert (Hout : 5 < 0 \/ primarySpan beam < 5) by (right; reflexivity).
  split; [exact Hout|].
  exact (simplySupported_out_of_domain beam 10 5 Hout).
Defined.



(** C6, at failing inputs.  In the second revision the deflection
    equations do not return a point with a null [y] outside the beam: the
    simply-supported one returns [{x, deflection: null}], an object with
    no [y] property, and the two-span one reaches no [return] at all. *)
Theorem deflection_out_of_domain_has_no_null_y :
  let beam :=
    mkBeam 3 2 (mkMaterial "timber" {[ "EI"%string := 1; "j2"%string := 2 ]}) in
  V2.simplySupported.getDeflectionEquation beam 5 (JNum (-1))
    = RObject (DeflectionNull (JNum (-1)))
  /\ get_y (DeflectionNull (JNum (-1))) = None
  /\ V2.simplySupported.getDeflectionEquation beam 5 (JNum 6)
    = RObject (DeflectionNull (JNum 6))
  /\ V2.twoSpanUnequal.getDeflectionEquation beam 5 (JNum (-1)) = RUndefined
  /\ V2.twoSpanUnequal.getDeflectionEquation beam 5 (JNum 6) = RUndefined.
Proof. vm_compute. repeat split. Qed.

(** ** Positions that are not numbers *)

(** The bending-moment and shear-force equations of the two-span analyzer
    answer a position that is not a number with a message. *)
Theorem twoSpanUnequal_rejects_non_number (beam : Beam) (load : Q) (x : jsval) :
  typeof x <> "number"%string ->
  V2.twoSpanUnequal.getBendingMomentEquation beam load x
    = RString "Invalid input: x must be a number."
  /\ V2.twoSpanUnequal.getShearForceEquation beam load x
    = RString "Invalid input: x must be a number.".
Proof.
  intros Htype.
  unfold V2.twoSpanUnequal.getBendingMomentEquation,
         V2.twoSpanUnequal.getShearForceEquation.
  destruct x; cbn in Htype; try contradiction; split; reflexivity.
Qed.

Lemma twoSpanUnequal_rejects_non_number_witness :
  let beam := mkBeam 3 2 (mkMaterial "timber" {[ "EI"%string := 1 ]}) in
  typeof JUndefined <> "number"%string
  /\ V2.twoSpanUnequal.getBendingMomentEquation beam 5 JUndefined
       = RString "Invalid input: x must be a number."
  /\ V2.twoSpanUnequal.getShearForceEquation beam 5 JUndefined
       = RString "Invalid input: x must be a number.".
Proof.
  intros beam.
  assert (Htype : typeof JUndefined <> "number"%string) by discriminate.
  split; [exact Htype|].
  exact (twoSpanUnequal_rejects_non_number beam 5 JUndefined Htype).
Defined.

(** C7, at failing inputs.  The deflection equation of the two-span
    analyzer has no test of the type of [x].  For [undefined] both range
    tests fail and no [return] is reached; [null] converts to 0, passes the
    first range test and comes back as the numeric point [{x: null, y: 0}].
    Neither is the message. *)
Theorem twoSpanUnequal_deflection_accepts_non_number :
  let beam :=
    mkBeam 3 2 (mkMaterial "timber" {[ "EI"%string := 1; "j2"%string := 2 ]}) in
  (forall (b : Beam) (load : Q),
      V2.twoSpanUnequal.getDeflectionEquation b load JUndefined = RUndefined)
  /\ (exists y : Q,
        V2.twoSpanUnequal.getDeflectionEquation beam 5 JNull
          = RObject (Point JNull (YNum (Fin y)))
        /\ y == 0).
Proof.
  intros beam. split.
  - intros b load. reflexivity.
  - eexists. split; [vm_compute; reflexivity|]. reflexivity.
Qed.

(** ** Further properties of the specification *)

(** On [0 <= x <= L] the simply-supported shear force is
    [w * (L / 2 - x)], in both revisions. *)
Theorem simplySupported_shear_force (beam : Beam) (load x : Q) :
  0 <= x <= primarySpan beam ->
  exists y : Q,
    V1.simplySupported.getShearForceEquation beam load (JNum x)
      = RObject (Point (JNum x) (YNum (Fin y)))
    /\ V2.simplySupported.getShearForceEquation beam load (JNum x)
      = RObject (Point (JNum x) (YNum (Fin y)))
    /\ y == load * (primarySpan beam / 2 - x).
Proof.
  intros [H0 HL].
  unfold V1.simplySupported.getShearForceEquation,
         V2.simplySupported.getShearForceEquation.
  cbn zeta. branch. num_eval.
  eexists. split; [reflexivity|]. split; reflexivity.
Qed.

(** The scenario of the specification: span 4, load 10; the shear force
    is 20 at the left support. *)
Lemma simplySupported_shear_force_witness :
  let beam := mkBeam 4 0 (mkMaterial "timber" {[ "EI"%string := 1 ]}) in
  0 <= 0 <= primarySpan beam
  /\ exists y : Q,
       V1.simplySupported.getShearForceEquation beam 10 (JNum 0)
         = RObject (Point (JNum 0) (YNum (Fin y)))
       /\ V2.simplySupported.getShearForceEquation beam 10 (JNum 0)
         = RObject (Point (JNum 0) (YNum (Fin y)))
       /\ y == 20.
Proof.
  intros beam.
  assert (Hx : 0 <= 0 <= primarySpan beam) by (split; discriminate).
  split; [exact Hx|].
  destruct (simplySupported_shear_force beam 10 0 Hx) as (y & E1 & E2 & Hy).
  exists y. split; [exact E1|]. split; [exact E2|].
  rewrite Hy. reflexivity.
Defined.

(** With positive spans, strictly inside the first span the two-span
    bending moment is [R1 * x - w * x^2 / 2] and the shear force is
    [R1 - w * x]. *)
Theorem twoSpanUnequal_first_span (beam : Beam) (load x : Q) :
  0 < primarySpan beam ->
  0 < secondarySpan beam ->
  0 < x < primarySpan beam ->
  let r := V2.twoSpanUnequal.reactions (primarySpan beam) (secondarySpan beam) load in
  exists r1 m v : Q,
    V2.twoSpanUnequal.R1 r = Fin r1
    /\ V2.twoSpanUnequal.getBendingMomentEquation beam load (JNum x)
         = RObject (Point (JNum x) (YNum (Fin m)))
    /\ m == r1 * x - load * x ^ 2 / 2
    /\ V2.twoSpanUnequal.getShearForceEquation beam load (JNum x)
         = RObject (Point (JNum x) (YNum (Fin v)))
    /\ v == r1 - load * x.
Proof.
  intros H1 H2 [Hlo Hhi] r. subst r.
  unfold V2.twoSpanUnequal.getBendingMomentEquation,
         V2.twoSpanUnequal.getShearForceEquation.
  cbn zeta.
  destruct (reactions_finite _ _ load H1 H2)
    as (m1 & r1 & r3 & r2 & -> & _ & _ & _ & _).
  cbn [V2.twoSpanUnequal.R1 V2.twoSpanUnequal.R2].
  branch. num_eval.
  exists r1. do 2 eexists.
  split; [reflexivity|]. split; [reflexivity|]. split; [field|].
  split; reflexivity.
Qed.

Lemma twoSpanUnequal_first_span_witness :
  let beam := mkBeam 3 2 (mkMaterial "timber" {[ "EI"%string := 1 ]}) in
  let r := V2.twoSpanUnequal.reactions 3 2 5 in
  (0 < primarySpan beam /\ 0 < secondarySpan beam /\ 0 < 1 < primarySpan beam)
  /\ exists r1 m v : Q,
       V2.twoSpanUnequal.R1 r = Fin r1
       /\ V2.twoSpanUnequal.getBendingMomentEquation beam 5 (JNum 1)
            = RObject (Point (JNum 1) (YNum (Fin m)))
       /\ m == r1 * 1 - 5 * 1 ^ 2 / 2
       /\ V2.twoSpanUnequal.getShearForceEquation beam 5 (JNum 1)
            = RObject (Point (JNum 1) (YNum (Fin v)))
       /\ v == r1 - 5 * 1.
Proof.
  intros beam r.
  assert (H1 : 0 < primarySpan beam) by reflexivity.
  assert (H2 : 0 < secondarySpan beam) by reflexivity.
  assert (Hx : 0 < 1 < primarySpan beam) by (split; reflexivity).
  split; [auto|].
  exact (twoSpanUnequal_first_span beam 5 1 H1 H2 Hx).
Defined.

(** With positive spans, strictly inside the second span the two-span
    shear force is [R1 + R2 - w * x]. *)
Theorem twoSpanUnequal_shear_second_span (beam : Beam) (load x : Q) :
  0 < primarySpan beam ->
  0 < secondarySpan beam ->
  primarySpan beam < x < primarySpan beam + secondarySpan beam ->
  let r := V2.twoSpanUnequal.reactions (primarySpan beam) (secondarySpan beam) load in
  exists r1 r2 v : Q,
    V2.twoSpanUnequal.R1 r = Fin r1
    /\ V2.twoSpanUnequal.R2 r = Fin r2
    /\ V2.twoSpanUnequal.getShearForceEquation beam load (JNum x)
         = RObject (Point (JNum x) (YNum (Fin v)))
    /\ v == r1 + r2 - load * x.
Proof.
  intros H1 H2 [Hlo Hhi] r. subst r.
  unfold V2.twoSpanUnequal.getShearForceEquation. cbn zeta.
  destruct (reactions_finite _ _ load H1 H2)
    as (m1 & r1 & r3 & r2 & -> & _ & _ & _ & _).
  cbn [V2.twoSpanUnequal.R1 V2.twoSpanUnequal.R2].
  branch. num_eval.
  exists r1, r2. eexists.
  split; [reflexivity|]. split; [reflexivity|]. split; reflexivity.
Qed.

Lemma twoSpanUnequal_shear_second_span_witness :
  let beam := mkBeam 3 2 (mkMaterial "timber" {[ "EI"%string := 1 ]}) in
  let r := V2.twoSpanUnequal.reactions 3 2 5 in
  (0 < primarySpan beam /\ 0 < secondarySpan beam
   /\ primarySpan beam < 4 < primarySpan beam + secondarySpan beam)
  /\ exists r1 r2 v : Q,
       V2.twoSpanUnequal.R1 r = Fin r1
       /\ V2.twoSpanUnequal.R2 r = Fin r2
       /\ V2.twoSpanUnequal.getShearForceEquation beam 5 (JNum 4)
            = RObject (Point (JNum 4) (YNum (Fin v)))
       /\ v == r1 + r2 - 5 * 4.
Proof.
  intros beam r.
  assert (H1 : 0 < primarySpan beam) by reflexivity.
  assert (H2 : 0 < secondarySpan beam) by reflexivity.
  assert (Hx : primarySpan beam < 4 < primarySpan beam + secondarySpan beam)
    by (split; reflexivity).
  split; [auto|].
  exact (twoSpanUnequal_shear_second_span beam 5 4 H1 H2 Hx).
Defined.

(** ** The simply-supported analyzer: shape of the diagrams *)

Lemma Qsquare_nonneg (a : Q) : 0 <= a * a.
Proof. unfold Qle, Qmult. cbn. nia. Qed.

Lemma simplySupported_moment_value (a : Analyzer) (beam : Beam) (load x : Q) :
  a = V1.simplySupported.analyzer \/ a = V2.simplySupported.analyzer ->
  0 <= x <= primarySpan beam ->
  exists m : Q,
    getBendingMomentEquation a beam load (JNum x)
      = RObject (Point (JNum x) (YNum (Fin m)))
    /\ m == load * x * (primarySpan beam - x) / 2.
Proof.
  intros [-> | ->] [H0 HL];
    unfold V1.simplySupported.analyzer, V2.simplySupported.analyzer;
    cbn [getBendingMomentEquation];
    unfold V1.simplySupported.getBendingMomentEquation,
           V2.simplySupported.getBendingMomentEquation;
    cbn zeta; branch; num_eval;
    eexists; (split; [reflexivity | field]).
Qed.

Lemma simplySupported_shear_value (a : Analyzer) (beam : Beam) (load x : Q) :
  a = V1.simplySupported.analyzer \/ a = V2.simplySupported.analyzer ->
  0 <= x <= primarySpan beam ->
  exists v : Q,
    getShearForceEquation a beam load (JNum x)
      = RObject (Point (JNum x) (YNum (Fin v)))
    /\ v == load * (primarySpan beam / 2 - x).
Proof.
  intros [-> | ->] [H0 HL];
    unfold V1.simplySupported.analyzer, V2.simplySupported.analyzer;
    cbn [getShearForceEquation];
    unfold V1.simplySupported.getShearForceEquation,
           V2.simplySupported.getShearForceEquation;
    cbn zeta; branch; num_eval;
    eexists; (split; reflexivity).
Qed.

(** In exact arithmetic the simply-supported diagrams mirror about
    midspan: the bending moment at [L - x] equals the one at [x], the
    shear force at [L - x] is the opposite of the one at [x].  In binary64
    the two sides agree up to rounding only. *)
Theorem simplySupported_mirror (a : Analyzer) (beam : Beam) (load x : Q) :
  a = V1.simplySupported.analyzer \/ a = V2.simplySupported.analyzer ->
  0 <= x <= primarySpan beam ->
  let x' := primarySpan beam - x in
  exists m m' v v' : Q,
    getBendingMomentEquation a beam load (JNum x)
      = RObject (Point (JNum x) (YNum (Fin m)))
    /\ getBendingMomentEquation a beam load (JNum x')
      = RObject (Point (JNum x') (YNum (Fin m')))
    /\ m' == m
    /\ getShearForceEquation a beam load (JNum x)
      = RObject (Point (JNum x) (YNum (Fin v)))
    /\ getShearForceEquation a beam load (JNum x')
      = RObject (Point (JNum x') (YNum (Fin v')))
    /\ v' == - v.
Proof.
  intros Ha Hx x'.
  assert (Hx' : 0 <= x' <= primarySpan beam) by (subst x'; lra).
  destruct (simplySupported_moment_value a beam load x Ha Hx) as (m & Em & Hm).
  destruct (simplySupported_moment_value a beam load x' Ha Hx') as (m' & Em' & Hm').
  destruct (simplySupported_shear_value a beam load x Ha Hx) as (v & Ev & Hv).
  destruct (simplySupported_shear_value a beam load x' Ha Hx') as (v' & Ev' & Hv').
  exists m, m', v, v'. repeat (split; [assumption|]).
  split.
  - rewrite Hm, Hm'. subst x'. field.
  - split; [assumption|]. split; [assumption|].
    rewrite Hv, Hv'. subst x'. field.
Qed.

Lemma simplySupported_mirror_witness :
  let beam := mkBeam 4 0 (mkMaterial "timber" {[ "EI"%string := 1 ]}) in
  let a := V2.simplySupported.analyzer in
  0 <= 1 <= primarySpan beam
  /\ exists m m' v v' : Q,
       getBendingMomentEquation a beam 10 (JNum 1)
         = RObject (Point (JNum 1) (YNum (Fin m)))
       /\ getBendingMomentEquation a beam 10 (JNum (4 - 1))
         = RObject (Point (JNum (4 - 1)) (YNum (Fin m')))
       /\ m' == m
       /\ getShearForceEquation a beam 10 (JNum 1)
         = RObject (Point (JNum 1) (YNum (Fin v)))
       /\ getShearForceEquation a beam 10 (JNum (4 - 1))
         = RObject (Point (JNum (4 - 1)) (YNum (Fin v')))
       /\ v' == - v.
Proof.
  intros beam a.
  assert (Hx : 0 <= 1 <= primarySpan beam) by (split; discriminate).
  split; [exact Hx|].
  exact (simplySupported_mirror a beam 10 1 (or_intror eq_refl) Hx).
Defined.

(** In exact arithmetic, under a downward load [w >= 0] the
    simply-supported bending moment is never negative and never exceeds
    [w * L^2 / 8], the value it takes at midspan.  In binary64 a value
    next to midspan can exceed the one at midspan by rounding. *)
Theorem simplySupported_moment_peak (a : Analyzer) (beam : Beam) (load x : Q) :
  a = V1.simplySupported.analyzer \/ a = V2.simplySupported.analyzer ->
  0 <= load ->
  0 <= x <= primarySpan beam ->
  exists m mid : Q,
    getBendingMomentEquation a beam load (JNum x)
      = RObject (Point (JNum x) (YNum (Fin m)))
    /\ getBendingMomentEquation a beam load (JNum (primarySpan beam / 2))
      = RObject (Point (JNum (primarySpan beam / 2)) (YNum (Fin mid)))
    /\ mid == load * primarySpan beam ^ 2 / 8
    /\ 0 <= m <= mid.
Proof.
  intros Ha Hw Hx.
  assert (Hmid : 0 <= primarySpan beam / 2 <= primarySpan beam)
    by (split; [apply Qle_shift_div_l | apply Qle_shift_div_r]; lra).
  destruct (simplySupported_moment_value a beam load x Ha Hx) as (m & Em & Hm).
  destruct (simplySupported_moment_value a beam load _ Ha Hmid) as (mid & Emid & Hmid').
  exists m, mid. split; [assumption|]. split; [assumption|].
  assert (Emid2 : mid == load * primarySpan beam ^ 2 / 8)
    by (rewrite Hmid'; field).
  split; [assumption|].
  rewrite Emid2, Hm. set (L := primarySpan beam) in *.
  assert (H1 : 0 <= load * (x * (L - x)))
    by (apply Qmult_le_0_compat; [assumption | apply Qmult_le_0_compat; lra]).
  assert (H2 : 0 <= load * ((L - 2 * x) * (L - 2 * x)))
    by (apply Qmult_le_0_compat; [assumption | apply Qsquare_nonneg]).
  assert (E1 : load * x * (L - x) / 2 == load * (x * (L - x)) * (1 # 2))
    by field.
  assert (E2 : load * L ^ 2 / 8
               == load * x * (L - x) / 2
                  + load * ((L - 2 * x) * (L - 2 * x)) * (1 # 8)) by field.
  split.
  - rewrite E1. lra.
  - rewrite E2. lra.
Qed.

Lemma simplySupported_moment_peak_witness :
  let beam := mkBeam 4 0 (mkMaterial "timber" {[ "EI"%string := 1 ]}) in
  let a := V2.simplySupported.analyzer in
  (0 <= 10 /\ 0 <= 1 <= primarySpan beam)
  /\ exists m mid : Q,
       getBendingMomentEquation a beam 10 (JNum 1)
         = RObject (Point (JNum 1) (YNum (Fin m)))
       /\ getBendingMomentEquation a beam 10 (JNum (4 / 2))
         = RObject (Point (JNum (4 / 2)) (YNum (Fin mid)))
       /\ mid == 10 * 4 ^ 2 / 8
       /\ 0 <= m <= mid.
Proof.
  intros beam a.
  assert (Hw : 0 <= 10) by discriminate.
  assert (Hx : 0 <= 1 <= primarySpan beam) by (split; discriminate).
  split; [auto|].
  exact (simplySupported_moment_peak a beam 10 1 (or_intror eq_refl) Hw Hx).
Defined.

(** In exact arithmetic, between two positions of a simply-supported beam
    the bending moment changes by the area under the shear-force diagram,
    which is a trapezoid: [M(b) - M(a) = (b - a) * (V(a) + V(b)) / 2].  In
    binary64 the two sides agree up to rounding only. *)
Theorem simplySupported_moment_is_shear_area
    (a : Analyzer) (beam : Beam) (load p q : Q) :
  a = V1.simplySupported.analyzer \/ a = V2.simplySupported.analyzer ->
  0 <= p <= primarySpan beam ->
  0 <= q <= primarySpan beam ->
  exists mp mq vp vq : Q,
    getBendingMomentEquation a beam load (JNum p)
      = RObject (Point (JNum p) (YNum (Fin mp)))
    /\ getBendingMomentEquation a beam load (JNum q)
      = RObject (Point (JNum q) (YNum (Fin mq)))
    /\ getShearForceEquation a beam load (JNum p)
      = RObject (Point (JNum p) (YNum (Fin vp)))
    /\ getShearForceEquation a beam load (JNum q)
      = RObject (Point (JNum q) (YNum (Fin vq)))
    /\ mq - mp == (q - p) * (vp + vq) / 2.
Proof.
  intros Ha Hp Hq.
  destruct (simplySupported_moment_value a beam load p Ha Hp) as (mp & Emp & Hmp).
  destruct (simplySupported_moment_value a beam load q Ha Hq) as (mq & Emq & Hmq).
  destruct (simplySupported_shear_value a beam load p Ha Hp) as (vp & Evp & Hvp).
  destruct (simplySupported_shear_value a beam load q Ha Hq) as (vq & Evq & Hvq).
  exists mp, mq, vp, vq. repeat (split; [assumption|]).
  rewrite Hmp, Hmq, Hvp, Hvq. field.
Qed.

Lemma simplySupported_moment_is_shear_area_witness :
  let beam := mkBeam 4 0 (mkMaterial "timber" {[ "EI"%string := 1 ]}) in
  let a := V2.simplySupported.analyzer in
  (0 <= 1 <= primarySpan beam /\ 0 <= 3 <= primarySpan beam)
  /\ exists mp mq vp vq : Q,
       getBendingMomentEquation a beam 10 (JNum 1)
         = RObject (Point (JNum 1) (YNum (Fin mp)))
       /\ getBendingMomentEquation a beam 10 (JNum 3)
         = RObject (Point (JNum 3) (YNum (Fin mq)))
       /\ getShearForceEquation a beam 10 (JNum 1)
         = RObject (Point (JNum 1) (YNum (Fin vp)))
       /\ getShearForceEquation a beam 10 (JNum 3)
         = RObject (Point (JNum 3) (YNum (Fin vq)))
       /\ mq - mp == (3 - 1) * (vp + vq) / 2.
Proof.
  intros beam a.
  assert (Hp : 0 <= 1 <= primarySpan beam) by (split; discriminate).
  assert (Hq : 0 <= 3 <= primarySpan beam) by (split; discriminate).
  split; [auto|].
  exact (simplySupported_moment_is_shear_area a beam 10 1 3
           (or_intror eq_refl) Hp Hq).
Defined.

(** ** The two-span analyzer: values at the supports *)

(** With positive spans the two-span bending moment is 0 at the left
    support; in exact arithmetic it equals the interior-support moment
    [M1] on both sides of the interior support and is 0 again at the
    right support.  In binary64 the values at [L1] and at [L1 + L2] are
    [M1] and 0 up to rounding only. *)
Theorem twoSpanUnequal_moment_at_supports (beam : Beam) (load : Q) :
  0 < primarySpan beam ->
  0 < secondarySpan beam ->
  let L1 := primarySpan beam in
  let L := primarySpan beam + secondarySpan beam in
  let r := V2.twoSpanUnequal.reactions (primarySpan beam) (secondarySpan beam) load in
  exists m1 y1 y2 yL : Q,
    V2.twoSpanUnequal.M1 r = Fin m1
    /\ V2.twoSpanUnequal.getBendingMomentEquation beam load (JNum 0)
         = RObject (Point (JNum 0) (YNum (Fin 0)))
    /\ V2.twoSpanUnequal.getBendingMomentEquation beam load (JNum L1)
         = RArray [ Point (JNum L1) (YNum (Fin y1));
                    Point (JNum L1) (YNum (Fin y2)) ]
    /\ y1 == m1 /\ y2 == m1
    /\ V2.twoSpanUnequal.getBendingMomentEquation beam load (JNum L)
         = RObject (Point (JNum L) (YNum (Fin yL)))
    /\ yL == 0.
Proof.
  intros H1 H2 L1 L r. subst L1 L r.
  unfold V2.twoSpanUnequal.getBendingMomentEquation. cbn zeta.
  destruct (reactions_finite _ _ load H1 H2)
    as (m1 & r1 & r3 & r2 & -> & Hm1 & Hr1 & Hr3 & Hr2).
  cbn [V2.twoSpanUnequal.R1 V2.twoSpanUnequal.R2 V2.twoSpanUnequal.M1].
  exists m1.
  assert (E0 : Qeq_bool 0 0 = true) by reflexivity.
  repeat match goal with
  | |- context [js_strict_eq (JNum ?a) ?b] => unfold js_strict_eq
  end.
  rewrite E0.
  branch. num_eval.
  do 3 eexists. split; [reflexivity|]. split; [reflexivity|].
  split; [reflexivity|].
  assert (Hy1 : r1 * primarySpan beam
                - load * (primarySpan beam * (primarySpan beam * 1)) / 2 == m1)
    by (rewrite Hr1; field; intro; lra).
  split; [exact Hy1|]. split; [rewrite <- Hy1; ring|].
  split; [reflexivity|].
  rewrite Hr2, Hr3, Hr1. field. split; intro; lra.
Qed.

Lemma twoSpanUnequal_moment_at_supports_witness :
  let beam := mkBeam 3 2 (mkMaterial "timber" {[ "EI"%string := 1 ]}) in
  let r := V2.twoSpanUnequal.reactions 3 2 5 in
  (0 < primarySpan beam /\ 0 < secondarySpan beam)
  /\ exists m1 y1 y2 yL : Q,
       V2.twoSpanUnequal.M1 r = Fin m1
       /\ V2.twoSpanUnequal.getBendingMomentEquation beam 5 (JNum 0)
            = RObject (Point (JNum 0) (YNum (Fin 0)))
       /\ V2.twoSpanUnequal.getBendingMomentEquation beam 5 (JNum 3)
            = RArray [ Point (JNum 3) (YNum (Fin y1));
                       Point (JNum 3) (YNum (Fin y2)) ]
       /\ y1 == m1 /\ y2 == m1
       /\ V2.twoSpanUnequal.getBendingMomentEquation beam 5 (JNum (3 + 2))
            = RObject (Point (JNum (3 + 2)) (YNum (Fin yL)))
       /\ yL == 0.
Proof.
  intros beam r.
  assert (H1 : 0 < primarySpan beam) by reflexivity.
  assert (H2 : 0 < secondarySpan beam) by reflexivity.
  split; [auto|].
  exact (twoSpanUnequal_moment_at_supports beam 5 H1 H2).
Defined.

(** With positive spans the two-span shear force is [R1] at the left
    support and, in exact arithmetic, [- R3] at the right support.  In
    binary64 the value at [L1 + L2] is [- R3] up to rounding only. *)
Theorem twoSpanUnequal_shear_at_end_supports (beam : Beam) (load : Q) :
  0 < primarySpan beam ->
  0 < secondarySpan beam ->
  let L := primarySpan beam + secondarySpan beam in
  let r := V2.twoSpanUnequal.reactions (primarySpan beam) (secondarySpan beam) load in
  exists r1 r3 vL : Q,
    V2.twoSpanUnequal.R1 r = Fin r1
    /\ V2.twoSpanUnequal.R3 r = Fin r3
    /\ V2.twoSpanUnequal.getShearForceEquation beam load (JNum 0)
         = RObject (Point (JNum 0) (YNum (Fin r1)))
    /\ V2.twoSpanUnequal.getShearForceEquation beam load (JNum L)
         = RObject (Point (JNum L) (YNum (Fin vL)))
    /\ vL == - r3.
Proof.
  intros H1 H2 L r. subst L r.
  unfold V2.twoSpanUnequal.getShearForceEquation. cbn zeta.
  destruct (reactions_finite _ _ load H1 H2)
    as (m1 & r1 & r3 & r2 & -> & Hm1 & Hr1 & Hr3 & Hr2).
  cbn [V2.twoSpanUnequal.R1 V2.twoSpanUnequal.R2 V2.twoSpanUnequal.R3].
  exists r1, r3.
  assert (E0 : Qeq_bool 0 0 = true) by reflexivity.
  unfold js_strict_eq at 1. rewrite E0.
  branch. num_eval.
  eexists. split; [reflexivity|]. split; [reflexivity|].
  split; [reflexivity|]. split; [reflexivity|].
  rewrite Hr2. ring.
Qed.

Lemma twoSpanUnequal_shear_at_end_supports_witness :
  let beam := mkBeam 3 2 (mkMaterial "timber" {[ "EI"%string := 1 ]}) in
  let r := V2.twoSpanUnequal.reactions 3 2 5 in
  (0 < primarySpan beam /\ 0 < secondarySpan beam)
  /\ exists r1 r3 vL : Q,
       V2.twoSpanUnequal.R1 r = Fin r1
       /\ V2.twoSpanUnequal.R3 r = Fin r3
       /\ V2.twoSpanUnequal.getShearForceEquation beam 5 (JNum 0)
            = RObject (Point (JNum 0) (YNum (Fin r1)))
       /\ V2.twoSpanUnequal.getShearForceEquation beam 5 (JNum (3 + 2))
            = RObject (Point (JNum (3 + 2)) (YNum (Fin vL)))
       /\ vL == - r3.
Proof.
  intros beam r.
  assert (H1 : 0 < primarySpan beam) by reflexivity.
  assert (H2 : 0 < secondarySpan beam) by reflexivity.
  split; [auto|].
  exact (twoSpanUnequal_shear_at_end_supports beam 5 H1 H2).
Defined.

(** ** The two-span analyzer: shape of the results *)

(** For a numeric position the bending-moment and shear-force equations
    of the two-span analyzer return an array exactly at the interior
    support, [x = L1], unless that support sits at 0. *)
Theorem twoSpanUnequal_array_iff_interior_support (beam : Beam) (load x : Q) :
  (isArray (V2.twoSpanUnequal.getBendingMomentEquation beam load (JNum x)) = true
     <-> x == primarySpan beam /\ ~ x == 0)
  /\ (isArray (V2.twoSpanUnequal.getShearForceEquation beam load (JNum x)) = true
     <-> x == primarySpan beam /\ ~ x == 0).
Proof.
  unfold V2.twoSpanUnequal.getBendingMomentEquation,
         V2.twoSpanUnequal.getShearForceEquation.
  cbn zeta. cbn [typeof String.eqb Ascii.eqb Bool.eqb negb].
  unfold js_strict_eq, js_gt, js_lt. cbn [ToNumber].
  destruct (Qeq_bool x 0) eqn:E0.
  - apply Qeq_bool_iff in E0. cbn [isArray].
    split; (split; [discriminate | intros [_ Hne]; contradiction]).
  - apply Qeq_bool_neq in E0.
    destruct (Qeq_bool x (primarySpan beam)) eqn:E1.
    + apply Qeq_bool_iff in E1.
      rewrite (Qle_bool_true (primarySpan beam) x) by lra.
      rewrite andb_false_r. cbn [isArray].
      split; (split; [intros _; split; assumption | reflexivity]).
    + apply Qeq_bool_neq in E1.
      repeat match goal with
      | |- context [if ?c then _ else _] => destruct c
      end; cbn [isArray];
      split; (split; [discriminate | intros [He _]; contradiction]).
Qed.



(** ** Deflection and the flexural rigidity *)

Lemma nmul_NonFinite_r (a : num) : (a * NonFinite)%num = NonFinite.
Proof. now destruct a. Qed.

Lemma nadd_NonFinite_r (a : num) : (a + NonFinite)%num = NonFinite.
Proof. now destruct a. Qed.

Lemma nsub_NonFinite_r (a : num) : (a - NonFinite)%num = NonFinite.
Proof. now destruct a. Qed.

Lemma ndiv_NonFinite_r (a : num) : (a / NonFinite)%num = NonFinite.
Proof. now destruct a. Qed.

Lemma ndiv_zero (a : num) (q : Q) : q == 0 -> (a / Fin q)%num = NonFinite.
Proof. intros Hq. destruct a; cbn; [|reflexivity]. now rewrite Qeq_bool_true. Qed.

Ltac absorb :=
  repeat first
    [ rewrite nmul_NonFinite_r | rewrite nadd_NonFinite_r
    | rewrite nsub_NonFinite_r | rewrite ndiv_NonFinite_r
    | progress cbn [nadd nsub nmul nopp ndiv parseFloat_toFixed2] ].

(** A material property that is missing reads as not a number, one that
    is present reads as its value. *)
Lemma number_property_lookup (m : Material) (k : string) :
  number_property m k =
    match properties m !! k with
    | Some v => Fin v
    | None => NonFinite
    end.
Proof.
  unfold number_property, get.
  destruct (properties m !! k); [reflexivity|].
  now destruct (bool_decide (k ∈ Object_prototype)).
Qed.

(** When the material has no [EI] property, or [EI] is 0, every
    deflection inside the beam is not a finite number ([NaN] or
    [Infinity]), in all four deflection equations. *)
Theorem deflection_without_rigidity (beam : Beam) (load x : Q) :
  match properties (material beam) !! "EI"%string with
  | Some e => e == 0
  | None => True
  end ->
  (0 <= x <= primarySpan beam ->
     V1.simplySupported.getDeflectionEquation beam load (JNum x)
       = RObject (Point (JNum x) (YNum NonFinite))
     /\ V2.simplySupported.getDeflectionEquation beam load (JNum x)
       = RObject (Point (JNum x) (YNum NonFinite))
     /\ V1.twoSpanUnequal.getDeflectionEquation beam load (JNum x)
       = RObject (Point (JNum x) (YNum NonFinite))
     /\ V2.twoSpanUnequal.getDeflectionEquation beam load (JNum x)
       = RObject (Point (JNum x) (YNum NonFinite)))
  /\ (primarySpan beam < x <= primarySpan beam + secondarySpan beam ->
        V1.twoSpanUnequal.getDeflectionEquation beam load (JNum x)
          = RObject (Point (JNum x) (YNum NonFinite))
        /\ V2.twoSpanUnequal.getDeflectionEquation beam load (JNum x)
          = RObject (Point (JNum x) (YNum NonFinite))).
Proof.
  intros HEI.
  unfold V1.simplySupported.getDeflectionEquation,
         V2.simplySupported.getDeflectionEquation,
         V1.twoSpanUnequal.getDeflectionEquation,
         V2.twoSpanUnequal.getDeflectionEquation.
  cbn zeta. cbn [ToNumber].
  rewrite (number_property_lookup (material beam) "EI").
  destruct (properties (material beam) !! "EI"%string) as [e|].
  - assert (E24 : (24 * e)%Q == 0) by (rewrite HEI; ring).
    assert (E9 : (e / (1000 * (1000 * (1000 * 1))))%Q == 0)
      by (rewrite HEI; reflexivity).
    assert (E249 : (24 * (e / (1000 * (1000 * (1000 * 1)))))%Q == 0)
      by (rewrite E9; ring).
    split; intros [Hlo Hhi]; branch; rewrite ?andb_false_r;
      cbn [nmul npow]; rewrite ?ndiv_Fin by literal_nonzero; cbn [nmul];
      rewrite ?(ndiv_zero _ _ E24), ?(ndiv_zero _ _ E249), ?(ndiv_zero _ _ E9);
      absorb; repeat split; reflexivity.
  - split; intros [Hlo Hhi]; branch; rewrite ?andb_false_r;
      absorb; repeat split; reflexivity.
Qed.

Lemma deflection_without_rigidity_witness :
  let beam := mkBeam 3 2 (mkMaterial "timber" {[ "j2"%string := 2 ]}) in
  match properties (material beam) !! "EI"%string with
  | Some e => e == 0
  | None => True
  end
  /\ (0 <= 1 <= primarySpan beam ->
        V1.simplySupported.getDeflectionEquation beam 5 (JNum 1)
          = RObject (Point (JNum 1) (YNum NonFinite))
        /\ V2.simplySupported.getDeflectionEquation beam 5 (JNum 1)
          = RObject (Point (JNum 1) (YNum NonFinite))
        /\ V1.twoSpanUnequal.getDeflectionEquation beam 5 (JNum 1)
          = RObject (Point (JNum 1) (YNum NonFinite))
        /\ V2.twoSpanUnequal.getDeflectionEquation beam 5 (JNum 1)
          = RObject (Point (JNum 1) (YNum NonFinite)))
  /\ (primarySpan beam < 1 <= primarySpan beam + secondarySpan beam ->
        V1.twoSpanUnequal.getDeflectionEquation beam 5 (JNum 1)
          = RObject (Point (JNum 1) (YNum NonFinite))
        /\ V2.twoSpanUnequal.getDeflectionEquation beam 5 (JNum 1)
          = RObject (Point (JNum 1) (YNum NonFinite))).
Proof.
  intros beam.
  assert (HEI : match properties (material beam) !! "EI"%string with
                | Some e => e == 0
                | None => True
                end) by (vm_compute; exact I).
  split; [exact HEI|].
  exact (deflection_without_rigidity beam 5 1 HEI).
Defined.

(** ** Rounding of the simply-supported deflection *)

#[local] Instance toFixed2_comp : Proper (Qeq ==> Qeq) toFixed2.
Proof.
  intros p q Hpq. unfold toFixed2, round_half_up.
  assert (Ebig : Qle_bool (10 ^ 21) (Qabs p) = Qle_bool (10 ^ 21) (Qabs q))
    by (rewrite Hpq; reflexivity).
  assert (Esign : Qle_bool 0 p = Qle_bool 0 q) by (rewrite Hpq; reflexivity).
  assert (Eup : Qfloor (p * 100 + (1 # 2)) = Qfloor (q * 100 + (1 # 2)))
    by (rewrite Hpq; reflexivity).
  assert (Edown : Qfloor (- p * 100 + (1 # 2)) = Qfloor (- q * 100 + (1 # 2)))
    by (rewrite Hpq; reflexivity).
  rewrite Ebig, Esign, Eup, Edown.
  destruct (Qle_bool (10 ^ 21) (Qabs q)); [exact Hpq|].
  destruct (Qle_bool 0 q); reflexivity.
Qed.

(** Below 10^21 in absolute value, [toFixed(2)] followed by [parseFloat]
    yields a multiple of 1/100 at most 1/200 away from its argument. *)
Lemma toFixed2_close (q : Q) :
  Qabs q < 10 ^ 21 ->
  Qabs (toFixed2 q - q) <= 1 # 200
  /\ exists n : Z, toFixed2 q == inject_Z n / 100.
Proof.
  intros Hsmall. unfold toFixed2, round_half_up.
  rewrite (Qle_bool_false _ _ Hsmall).
  destruct (Qle_bool 0 q).
  - set (n := Qfloor (q * 100 + (1 # 2))).
    pose proof (Qfloor_le (q * 100 + (1 # 2))) as Hlo.
    pose proof (Qlt_floor (q * 100 + (1 # 2))) as Hhi.
    fold n in Hlo, Hhi. rewrite inject_Z_plus in Hhi.
    change (inject_Z 1) with 1 in Hhi.
    split; [|exists n; reflexivity].
    apply Qabs_Qle_condition.
    assert (E : inject_Z n / 100 == inject_Z n * (1 # 100)) by field.
    rewrite E. split; lra.
  - set (n := Qfloor (- q * 100 + (1 # 2))).
    pose proof (Qfloor_le (- q * 100 + (1 # 2))) as Hlo.
    pose proof (Qlt_floor (- q * 100 + (1 # 2))) as Hhi.
    fold n in Hlo, Hhi. rewrite inject_Z_plus in Hhi.
    change (inject_Z 1) with 1 in Hhi.
    split.
    + apply Qabs_Qle_condition.
      assert (E : inject_Z n / 100 == inject_Z n * (1 # 100)) by field.
      rewrite E. split; lra.
    + exists (- n)%Z. rewrite inject_Z_opp. field.
Qed.


(** With a rigidity [EI] that is not 0 and a factor [j2], inside the beam
    the simply-supported deflection of the second revision is the exact
    value [d = -(w x / (24 EI)) (L^3 - 2 L x^2 + x^3) j2 1000 10^9]
    rounded to two decimals: below 10^21 it is a multiple of 1/100 within
    1/200 of [d]. *)
Theorem simplySupported_deflection_rounded
    (beam : Beam) (load x e j : Q) :
  properties (material beam) !! "EI"%string = Some e ->
  ~ e == 0 ->
  properties (material beam) !! "j2"%string = Some j ->
  0 <= x <= primarySpan beam ->
  let L := primarySpan beam in
  exists d y : Q,
    V2.simplySupported.getDeflectionEquation beam load (JNum x)
      = RObject (Point (JNum x) (YNum (Fin y)))
    /\ d == - ((load * x) / (24 * e)) * (L ^ 3 - 2 * L * x ^ 2 + x ^ 3)
              * j * 1000 * 10 ^ 9
    /\ y == toFixed2 d
    /\ (Qabs d < 10 ^ 21 ->
          Qabs (y - d) <= 1 # 200 /\ exists n : Z, y == inject_Z n / 100).
Proof.
  intros HEI He Hj2 [H0 HL] L. subst L.
  unfold V2.simplySupported.getDeflectionEquation. cbn zeta.
  rewrite !number_property_lookup, HEI, Hj2.
  branch.
  assert (H24 : ~ 24 * e == 0) by (intros E; apply He; lra).
  cbn [nmul npow nadd nsub]. rewrite (ndiv_Fin _ _ H24).
  cbn [nopp nmul nadd nsub parseFloat_toFixed2].
  match goal with
  | |- context [toFixed2 ?dc] => exists dc, (toFixed2 dc)
  end.
  split; [reflexivity|].
  split; [field; exact He|]. split; [reflexivity|].
  intros Hsmall. apply toFixed2_close. exact Hsmall.
Qed.

Lemma simplySupported_deflection_rounded_witness :
  let beam :=
    mkBeam 4 0 (mkMaterial "timber" {[ "EI"%string := 1; "j2"%string := 2 ]}) in
  (properties (material beam) !! "EI"%string = Some 1
   /\ ~ 1 == 0
   /\ properties (material beam) !! "j2"%string = Some 2
   /\ 0 <= 1 <= primarySpan beam)
  /\ exists d y : Q,
       V2.simplySupported.getDeflectionEquation beam 10 (JNum 1)
         = RObject (Point (JNum 1) (YNum (Fin y)))
       /\ d == - ((10 * 1) / (24 * 1)) * (4 ^ 3 - 2 * 4 * 1 ^ 2 + 1 ^ 3)
                 * 2 * 1000 * 10 ^ 9
       /\ y == toFixed2 d
       /\ (Qabs d < 10 ^ 21 ->
             Qabs (y - d) <= 1 # 200 /\ exists n : Z, y == inject_Z n / 100).
Proof.
  intros beam.
  assert (HEI : properties (material beam) !! "EI"%string = Some 1)
    by (vm_compute; reflexivity).
  assert (He : ~ 1 == 0) by discriminate.
  assert (Hj2 : properties (material beam) !! "j2"%string = Some 2)
    by (vm_compute; reflexivity).
  assert (Hx : 0 <= 1 <= primarySpan beam) by (split; discriminate).
  split; [auto|].
  exact (simplySupported_deflection_rounded beam 10 1 1 2 HEI He Hj2 Hx).
Defined.



(** ** The first revision of the two-span analyzer *)





(** ** The two-span analyzer: equal spans *)



(** ** The plotter: sampled positions *)

Lemma sample_bounds (fuel : nat) (x stop : Q) :
  forall k y, AnalysisPlotter.sample fuel x stop !! k = Some y ->
    y == x + inject_Z (Z.of_nat k) * AnalysisPlotter.step /\ x <= y <= stop.
Proof.
  revert x. induction fuel as [|fuel IH]; intros x k y; cbn [AnalysisPlotter.sample].
  - intros H. discriminate H.
  - destruct (Qle_bool x stop) eqn:Hle; [|intros H; discriminate H].
    apply Qle_bool_iff in Hle.
    destruct k as [|k]; cbn [lookup list_lookup].
    + intros [= <-]. cbn. split; [ring | lra].
    + intros Hk. apply IH in Hk as (Hy & Hlo & Hhi).
      unfold AnalysisPlotter.step in *.
      rewrite Nat2Z.inj_succ, <- Z.add_1_r, inject_Z_plus.
      change (inject_Z 1) with 1. split; [rewrite Hy; ring | lra].
Qed.


(** While the test of the loop holds, every round adds a position. *)
Lemma sample_length (n : nat) (x stop : Q) :
  (n <> O -> x + inject_Z (Z.of_nat (pred n)) * AnalysisPlotter.step <= stop) ->
  length (AnalysisPlotter.sample n x stop) = n.
Proof.
  revert x. induction n as [|n IH]; intros x Hin; [reflexivity|].
  cbn [AnalysisPlotter.sample].
  assert (Hlast : x + inject_Z (Z.of_nat n) * AnalysisPlotter.step <= stop)
    by (apply Hin; discriminate).
  assert (Hn : 0 <= inject_Z (Z.of_nat n) * AnalysisPlotter.step).
  { apply Qmult_le_0_compat; [|discriminate].
    change 0 with (inject_Z 0). rewrite <- Zle_Qle. lia. }
  rewrite (Qle_bool_true x stop) by lra.
  cbn [length]. f_equal. apply IH. intros Hne.
  destruct n as [|n]; [contradiction|]. cbn [pred].
  rewrite Nat2Z.inj_succ, <- Z.add_1_r, inject_Z_plus in Hlast.
  change (inject_Z 1) with 1 in Hlast.
  unfold AnalysisPlotter.step in *. lra.
Qed.

Lemma Qfloor_nonneg (q : Q) : 0 <= q -> (0 <= Qfloor q)%Z.
Proof.
  intros Hq. change 0%Z with (Qfloor 0). now apply Qfloor_resp_le.
Qed.


(** ** The plotter: what [plot] hands to the chart *)

Lemma map_completion_Return {A B : Type} (f : A -> completion B) (l : list A) :
  (forall a, a ∈ l -> exists b, f a = Return b) ->
  exists bs, map_completion f l = Return bs.
Proof.
  induction l as [|a l IH]; intros Hall; cbn [map_completion].
  - eexists. reflexivity.
  - destruct (Hall a) as [b Hb]; [left|].
    destruct IH as [bs Hbs]; [intros a' Ha'; apply Hall; now right|].
    rewrite Hb, Hbs. cbn. eexists. reflexivity.
Qed.

Lemma point_of_fst (i : nat) (equation : jsval -> result) (x : Q) p :
  AnalysisPlotter.point_of i equation x = Return p -> fst p = x.
Proof.
  unfold AnalysisPlotter.point_of.
  destruct (equation (JNum x)) as [o|l|s|]; cbn [isArray];
    try (intros [= <-]; reflexivity); try discriminate.
  destruct (l !! i); [intros [= <-]; reflexivity | discriminate].
Qed.

Lemma map_completion_points (i : nat) (equation : jsval -> result) (l : list Q) ps :
  map_completion (AnalysisPlotter.point_of i equation) l = Return ps ->
  map fst ps = l.
Proof.
  revert ps. induction l as [|x l IH]; intros ps; cbn [map_completion].
  - intros [= <-]. reflexivity.
  - destruct (AnalysisPlotter.point_of i equation x) as [p|] eqn:Hp; [|discriminate].
    destruct (map_completion (AnalysisPlotter.point_of i equation) l) as [bs|];
      [|discriminate].
    cbn. intros [= <-]. cbn [map]. f_equal; [now apply point_of_fst in Hp | now apply IH].
Qed.

Lemma zip_by_index_fst_snd (ps : list (Q * AnalysisPlotter.chart_y)) :
  AnalysisPlotter.zip_by_index (map fst ps) (map snd ps) = ps.
Proof.
  unfold AnalysisPlotter.zip_by_index.
  induction ps as [|[x y] ps IH]; [reflexivity|].
  cbn [map fst snd]. rewrite imap_cons. cbn [lookup list_lookup default].
  f_equal. exact IH.
Qed.

Lemma plottable_point_of (i : nat) (equation : jsval -> result) (x : Q) :
  (i < 2)%nat -> plottable equation x ->
  exists p, AnalysisPlotter.point_of i equation x = Return p.
Proof.
  intros Hi [[o Ho] | (o1 & o2 & Ho)]; unfold AnalysisPlotter.point_of; rewrite Ho.
  - eexists. reflexivity.
  - cbn [isArray]. destruct i as [|[|i]]; [eexists; reflexivity.. | lia].
Qed.


Lemma plottable_twoSpanUnequal (beam : Beam) (load x : Q) :
  plottable (V2.twoSpanUnequal.getBendingMomentEquation beam load) x
  /\ plottable (V2.twoSpanUnequal.getShearForceEquation beam load) x.
Proof.
  unfold V2.twoSpanUnequal.getBendingMomentEquation,
         V2.twoSpanUnequal.getShearForceEquation, plottable.
  cbn zeta. cbn [typeof String.eqb Ascii.eqb Bool.eqb negb].
  split;
    repeat match goal with
    | |- context [if ?c then _ else _] => destruct c
    end;
    first [ left; eexists; reflexivity
          | right; do 2 eexists; reflexivity ].
Qed.


(** The single position of an empty second span. *)
Lemma xValues_empty_span (x : Q) :
  AnalysisPlotter.xValues x (x + 0) = [x].
Proof.
  unfold AnalysisPlotter.xValues, AnalysisPlotter.rounds.
  rewrite (Qle_bool_true x (x + 0)) by lra.
  assert (E : Qfloor ((x + 0 - x) / AnalysisPlotter.step) = 0%Z).
  { transitivity (Qfloor 0); [|reflexivity]. apply Qfloor_comp.
    unfold AnalysisPlotter.step. field. }
  rewrite E. cbn [Z.to_nat AnalysisPlotter.sample].
  now rewrite (Qle_bool_true x (x + 0)) by lra.
Qed.

(** What [plot] returns once both maps have succeeded. *)
Lemma plot_returns (container : string) (data : V2.Analysis) ps1 ps2 :
  let ss := String.eqb (V2.condition data) "simply-supported" in
  let beam' :=
    if ss
    then mkBeam (primarySpan (V2.beam data)) 0 (material (V2.beam data))
    else V2.beam data in
  map_completion (AnalysisPlotter.point_of 0 (V2.equation data))
    (AnalysisPlotter.xValues 0 (primarySpan beam')) = Return ps1 ->
  map_completion (AnalysisPlotter.point_of 1 (V2.equation data))
    (AnalysisPlotter.xValues (primarySpan beam')
       (primarySpan beam' + secondarySpan beam')) = Return ps2 ->
  exists chart,
    AnalysisPlotter.plot container data = Return (beam', chart)
    /\ AnalysisPlotter.dataset1 chart = ps1
    /\ AnalysisPlotter.labels chart
       = map fst ps1 ++ (if ss then tail (map fst ps2) else map fst ps2)
    /\ AnalysisPlotter.dataset2 chart
       = (if ss
          then AnalysisPlotter.zip_by_index (tail (map fst ps2)) (map snd ps2)
          else ps2).
Proof.
  intros ss beam' H1 H2. unfold AnalysisPlotter.plot. cbn zeta.
  fold ss. fold beam'. rewrite H1, H2. cbn [bind].
  eexists. split; [reflexivity|].
  cbn [AnalysisPlotter.dataset1 AnalysisPlotter.dataset2 AnalysisPlotter.labels].
  rewrite zip_by_index_fst_snd. split; [reflexivity|]. split; [reflexivity|].
  destruct ss; [reflexivity | apply zip_by_index_fst_snd].
Qed.


Lemma plot_plottable (container : string) (data : V2.Analysis) :
  let ss := String.eqb (V2.condition data) "simply-supported" in
  let beam' :=
    if ss
    then mkBeam (primarySpan (V2.beam data)) 0 (material (V2.beam data))
    else V2.beam data in
  let primary := AnalysisPlotter.xValues 0 (primarySpan beam') in
  let secondary :=
    AnalysisPlotter.xValues (primarySpan beam')
      (primarySpan beam' + secondarySpan beam') in
  (forall x, x ∈ primary -> plottable (V2.equation data) x) ->
  (forall x, x ∈ secondary -> plottable (V2.equation data) x) ->
  exists chart,
    AnalysisPlotter.plot container data = Return (beam', chart)
    /\ map_completion (AnalysisPlotter.point_of 0 (V2.equation data)) primary
       = Return (AnalysisPlotter.dataset1 chart)
    /\ (if ss
        then AnalysisPlotter.dataset2 chart = []
             /\ AnalysisPlotter.labels chart = primary
        else map_completion (AnalysisPlotter.point_of 1 (V2.equation data)) secondary
               = Return (AnalysisPlotter.dataset2 chart)
             /\ AnalysisPlotter.labels chart = primary ++ secondary).
Proof.
  intros ss beam' primary secondary Hp Hs.
  destruct (map_completion_Return (AnalysisPlotter.point_of 0 (V2.equation data)) primary)
    as [ps1 H1].
  { intros x Hx. apply plottable_point_of; [lia | now apply Hp]. }
  destruct (map_completion_Return (AnalysisPlotter.point_of 1 (V2.equation data)) secondary)
    as [ps2 H2].
  { intros x Hx. apply plottable_point_of; [lia | now apply Hs]. }
  destruct (plot_returns container data ps1 ps2 H1 H2)
    as (chart & Hplot & Hd1 & Hl & Hd2).
  exists chart. split; [exact Hplot|]. split; [now rewrite Hd1|].
  pose proof (map_completion_points _ _ _ _ H1) as Hf1.
  pose proof (map_completion_points _ _ _ _ H2) as Hf2.
  fold ss in Hl, Hd2. rewrite Hf1, Hf2 in Hl. rewrite Hf2 in Hd2.
  destruct ss eqn:Hss.
  - assert (Esec : secondary = [primarySpan (V2.beam data)])
      by (subst secondary beam'; cbn [primarySpan secondarySpan];
          apply xValues_empty_span).
    rewrite Esec in Hl, Hd2. cbn [tail] in Hl, Hd2.
    rewrite app_nil_r in Hl. split; [exact Hd2 | exact Hl].
  - split; [now rewrite Hd2 | exact Hl].
Qed.



Lemma map_completion_Forall2 {A B : Type} (f : A -> completion B) (l : list A) bs :
  map_completion f l = Return bs ->
  Forall2 (fun a b => f a = Return b) l bs.
Proof.
  revert bs. induction l as [|a l IH]; intros bs; cbn [map_completion].
  - intros [= <-]. constructor.
  - destruct (f a) as [b|] eqn:Hb; [|discriminate].
    destruct (map_completion f l) as [bs'|]; [|discriminate].
    cbn. intros [= <-]. constructor; [exact Hb | now apply IH].
Qed.

Lemma xValues_length (start stop : Q) :
  start <= stop ->
  length (AnalysisPlotter.xValues start stop)
    = S (Z.to_nat (Qfloor ((stop - start) / AnalysisPlotter.step))).
Proof.
  intros Hle. unfold AnalysisPlotter.xValues, AnalysisPlotter.rounds.
  rewrite (Qle_bool_true _ _ Hle).
  assert (Hq : 0 <= (stop - start) / AnalysisPlotter.step)
    by (apply Qle_shift_div_l; [reflexivity | lra]).
  apply sample_length. intros _. cbn [pred].
  rewrite Z2Nat.id by (now apply Qfloor_nonneg).
  pose proof (Qfloor_le ((stop - start) / AnalysisPlotter.step)) as Hfl.
  apply (Qmult_le_compat_r _ _ AnalysisPlotter.step) in Hfl; [|discriminate].
  assert (E : (stop - start) / AnalysisPlotter.step * AnalysisPlotter.step
              == stop - start) by (field; discriminate).
  rewrite E in Hfl. lra.
Qed.

(** The shear-force result of the two-span analyzer at the interior
    support. *)
Lemma twoSpanUnequal_shear_at_interior_support (beam : Beam) (load x : Q) :
  0 < primarySpan beam ->
  0 < secondarySpan beam ->
  x == primarySpan beam ->
  exists r1 r2 : Q,
    V2.twoSpanUnequal.R1
      (V2.twoSpanUnequal.reactions (primarySpan beam) (secondarySpan beam) load)
      = Fin r1
    /\ V2.twoSpanUnequal.R2
      (V2.twoSpanUnequal.reactions (primarySpan beam) (secondarySpan beam) load)
      = Fin r2
    /\ V2.twoSpanUnequal.getShearForceEquation beam load (JNum x)
       = RArray [ Point (JNum x) (YNum (Fin (r1 - load * primarySpan beam)));
                  Point (JNum x) (YNum (Fin (r1 + r2 - load * primarySpan beam))) ].
Proof.
  intros H1 H2 Hx.
  unfold V2.twoSpanUnequal.getShearForceEquation. cbn zeta.
  destruct (reactions_finite _ _ load H1 H2)
    as (m1 & r1 & r3 & r2 & -> & _ & _ & _ & _).
  cbn [V2.twoSpanUnequal.R1 V2.twoSpanUnequal.R2].
  branch. num_eval. exists r1, r2. repeat split; reflexivity.
Qed.

(** When the interior support falls on a sampled position ([L1] is a
    multiple of 1/2) the chart of the two-span shear force shows the jump
    there: the first dataset ends and the second begins at [x = L1], and
    in exact arithmetic the second begins [R2] above the end of the
    first.  In binary64 the height of the jump is [R2] up to rounding
    only. *)
Theorem plot_shear_jump
    (beam : Beam) (load : Q) (container : string) (k : nat) (data : V2.Analysis) :
  0 < primarySpan beam ->
  0 < secondarySpan beam ->
  primarySpan beam == inject_Z (Z.of_nat k) / 2 ->
  V2.BeamAnalysis.getShearForce beam load "two-span-unequal" = Return data ->
  exists chart (x1 y1 y2 r2 : Q),
    AnalysisPlotter.plot container data = Return (beam, chart)
    /\ V2.twoSpanUnequal.R2
         (V2.twoSpanUnequal.reactions (primarySpan beam) (secondarySpan beam) load)
       = Fin r2
    /\ last (AnalysisPlotter.dataset1 chart)
       = Some (x1, AnalysisPlotter.CNum (Fin y1))
    /\ head (AnalysisPlotter.dataset2 chart)
       = Some (primarySpan beam, AnalysisPlotter.CNum (Fin y2))
    /\ x1 == primarySpan beam
    /\ y2 - y1 == r2.
Proof.
  intros H1 H2 Hk Hdata.
  unfold V2.BeamAnalysis.getShearForce in Hdata.
  rewrite get_analyzer_V2 in Hdata. cbn in Hdata. injection Hdata as <-.
  set (eq := V2.twoSpanUnequal.getShearForceEquation beam load).
  set (data := V2.mkAnalysis beam load eq "two-span-unequal").
  destruct (plot_plottable container data) as (chart & Hplot & Hd1 & Hd2 & _);
    [intros x _; apply (plottable_twoSpanUnequal beam load x) .. |].
  cbn in Hplot, Hd1, Hd2. fold eq in Hd1, Hd2.
  (* the last position of the primary span *)
  assert (Hlen : length (AnalysisPlotter.xValues 0 (primarySpan beam)) = S k).
  { rewrite xValues_length by lra. f_equal.
    assert (E : (primarySpan beam - 0) / AnalysisPlotter.step
                == inject_Z (Z.of_nat k))
      by (rewrite Hk; unfold AnalysisPlotter.step; field).
    rewrite (Qfloor_comp _ _ E), Qfloor_Z. apply Nat2Z.id. }
  destruct (lookup_lt_is_Some_2 (AnalysisPlotter.xValues 0 (primarySpan beam)) k)
    as [x1 Hx1]; [lia|].
  assert (Ex1 : x1 == primarySpan beam).
  { unfold AnalysisPlotter.xValues in Hx1.
    apply sample_bounds in Hx1 as [Hx1 _].
    rewrite Hx1, Hk. unfold AnalysisPlotter.step. field. }
  apply map_completion_Forall2 in Hd1, Hd2.
  destruct (Forall2_lookup_l _ _ _ _ _ Hd1 Hx1) as (p1 & Hp1 & Hf1).
  pose proof (Forall2_length _ _ _ Hd1) as Hlen1.
  destruct (twoSpanUnequal_shear_at_interior_support beam load x1 H1 H2 Ex1)
    as (r1 & r2 & Hr1 & Hr2 & Eeq1).
  unfold AnalysisPlotter.point_of in Hf1. fold eq in Eeq1.
  rewrite Eeq1 in Hf1. cbn in Hf1. injection Hf1 as <-.
  (* the first position of the secondary span *)
  assert (Hsec : exists rest,
             AnalysisPlotter.xValues (primarySpan beam)
               (primarySpan beam + secondarySpan beam)
             = primarySpan beam :: rest).
  { unfold AnalysisPlotter.xValues, AnalysisPlotter.rounds.
    rewrite (Qle_bool_true (primarySpan beam)
               (primarySpan beam + secondarySpan beam)) by lra.
    cbn [AnalysisPlotter.sample].
    rewrite (Qle_bool_true (primarySpan beam)
               (primarySpan beam + secondarySpan beam)) by lra.
    eexists. reflexivity. }
  destruct Hsec as [rest Hsec]. rewrite Hsec in Hd2.
  inversion Hd2 as [|? p2 ? ds2 Hf2 _ Ea Eb]; subst.
  destruct (twoSpanUnequal_shear_at_interior_support beam load (primarySpan beam)
              H1 H2 (Qeq_refl _)) as (r1' & r2' & Hr1' & Hr2' & Eeq2).
  unfold AnalysisPlotter.point_of in Hf2. fold eq in Eeq2.
  rewrite Eeq2 in Hf2. cbn in Hf2. injection Hf2 as <-.
  exists chart, x1. do 2 eexists. exists r2.
  split; [exact Hplot|]. split; [exact Hr2|].
  split.
  { rewrite last_lookup, <- Hlen1, Hlen. cbn [pred]. exact Hp1. }
  split; [rewrite <- Eb; reflexivity|].
  split; [exact Ex1|].
  rewrite Hr1 in Hr1'. rewrite Hr2 in Hr2'.
  injection Hr1' as <-. injection Hr2' as <-. ring.
Qed.

Lemma plot_shear_jump_witness :
  let beam := mkBeam 3 2 (mkMaterial "timber" {[ "EI"%string := 1 ]}) in
  let data :=
    V2.mkAnalysis beam 5 (V2.twoSpanUnequal.getShearForceEquation beam 5)
      "two-span-unequal" in
  (0 < primarySpan beam /\ 0 < secondarySpan beam
   /\ primarySpan beam == inject_Z (Z.of_nat 6) / 2
   /\ V2.BeamAnalysis.getShearForce beam 5 "two-span-unequal" = Return data)
  /\ exists chart (x1 y1 y2 r2 : Q),
       AnalysisPlotter.plot "shear_force_plot" data = Return (beam, chart)
       /\ V2.twoSpanUnequal.R2 (V2.twoSpanUnequal.reactions 3 2 5) = Fin r2
       /\ last (AnalysisPlotter.dataset1 chart)
          = Some (x1, AnalysisPlotter.CNum (Fin y1))
       /\ head (AnalysisPlotter.dataset2 chart)
          = Some (primarySpan beam, AnalysisPlotter.CNum (Fin y2))
       /\ x1 == primarySpan beam
       /\ y2 - y1 == r2.
Proof.
  intros beam data.
  assert (H1 : 0 < primarySpan beam) by reflexivity.
  assert (H2 : 0 < secondarySpan beam) by reflexivity.
  assert (Hk : primarySpan beam == inject_Z (Z.of_nat 6) / 2) by reflexivity.
  assert (Hdata : V2.BeamAnalysis.getShearForce beam 5 "two-span-unequal" = Return data)
    by reflexivity.
  split; [auto|].
  exact (plot_shear_jump beam 5 "shear_force_plot" 6 data H1 H2 Hk Hdata).
Defined.

(** ** The layup drawer: stacking of the layers *)

Lemma fold_thickness_acc (l : list LayupDrawer.Layer) (acc : Q) :
  fold_left (fun sum layer => sum + LayupDrawer.thickness layer) l acc
  == acc + LayupDrawer.totalThickness l.
Proof.
  unfold LayupDrawer.totalThickness. revert acc.
  induction l as [|a l IH]; intros acc; cbn [fold_left].
  - ring.
  - rewrite (IH (acc + LayupDrawer.thickness a)),
            (IH (0 + LayupDrawer.thickness a)). ring.
Qed.

Lemma totalThickness_cons (a : LayupDrawer.Layer) (l : list LayupDrawer.Layer) :
  LayupDrawer.totalThickness (a :: l)
  == LayupDrawer.thickness a + LayupDrawer.totalThickness l.
Proof.
  unfold LayupDrawer.totalThickness at 1. cbn [fold_left].
  rewrite fold_thickness_acc. ring.
Qed.

Lemma totalThickness_rev (l : list LayupDrawer.Layer) :
  LayupDrawer.totalThickness (rev l) == LayupDrawer.totalThickness l.
Proof.
  induction l as [|a l IH]; [reflexivity|].
  cbn [rev]. unfold LayupDrawer.totalThickness at 1.
  rewrite fold_left_app. cbn [fold_left].
  fold (LayupDrawer.totalThickness (rev l)).
  rewrite IH, totalThickness_cons. ring.
Qed.

(** The calls made from index [n - 1] down: the layers in reverse order,
    each offset by the scaled thickness of the layers drawn before it. *)
Lemma drawNext_calls (layupData : list LayupDrawer.Layer) (n : nat) (y0 : Q) :
  (n <= length layupData)%nat ->
  ~ LayupDrawer.totalThickness layupData == 0 ->
  map fst (LayupDrawer.drawNext layupData n (Fin y0)) = rev (take n layupData)
  /\ forall k layer y,
       LayupDrawer.drawNext layupData n (Fin y0) !! k = Some (layer, y) ->
       exists q : Q,
         y = Fin q
         /\ q == y0 + LayupDrawer.totalThickness (take k (rev (take n layupData)))
                      * (LayupDrawer.canvasHeight
                         / LayupDrawer.totalThickness layupData).
Proof.
  intros Hn HT. revert y0 Hn.
  induction n as [|n IH]; intros y0 Hn; cbn [LayupDrawer.drawNext].
  - split; [reflexivity|]. intros k layer y H. discriminate H.
  - destruct (lookup_lt_is_Some_2 layupData n) as [a Ha]; [lia|].
    rewrite Ha. unfold LayupDrawer.thicknessScale.
    rewrite (ndiv_Fin _ _ HT). cbn [nmul nadd].
    destruct (IH (y0 + LayupDrawer.thickness a
                       * (LayupDrawer.canvasHeight
                          / LayupDrawer.totalThickness layupData)))
      as [IHm IHk]; [lia|].
    rewrite (take_S_r _ _ _ Ha), rev_app_distr. cbn [rev app map fst].
    split; [now rewrite IHm|].
    intros [|k] layer y; cbn [lookup list_lookup].
    + intros [= <- <-]. exists y0. split; [reflexivity|].
      cbn [take]. unfold LayupDrawer.totalThickness at 1. cbn [fold_left]. ring.
    + intros Hk. destruct (IHk k layer y Hk) as (q & -> & Hq).
      exists q. split; [reflexivity|].
      rewrite Hq. cbn [take]. rewrite totalThickness_cons. ring.
Qed.

(** For a panel whose total thickness is not 0, [drawLayup] draws the
    layers from the last one up to the first, each layer starting where
    the one before it ended.  In exact arithmetic a layer starts at 435
    times the share of the total thickness already drawn, and the stack
    ends at the height of the canvas, 435.  In binary64 the offsets and
    the end of the stack are these values up to rounding only. *)
Theorem drawLayup_stacks (layupData : list LayupDrawer.Layer) :
  ~ LayupDrawer.totalThickness layupData == 0 ->
  let total := LayupDrawer.totalThickness layupData in
  map fst (LayupDrawer.drawLayup layupData) = rev layupData
  /\ (forall k layer y,
        LayupDrawer.drawLayup layupData !! k = Some (layer, y) ->
        exists q h : Q,
          y = Fin q
          /\ LayupDrawer.layerHeight layupData layer = Fin h
          /\ q == 435 * LayupDrawer.totalThickness (take k (rev layupData)) / total
          /\ q + h
             == 435 * LayupDrawer.totalThickness (take (S k) (rev layupData)) / total)
  /\ (forall layer y,
        last (LayupDrawer.drawLayup layupData) = Some (layer, y) ->
        exists q h : Q,
          y = Fin q
          /\ LayupDrawer.layerHeight layupData layer = Fin h
          /\ q + h == 435).
Proof.
  intros HT total. subst total.
  unfold LayupDrawer.drawLayup.
  destruct (drawNext_calls layupData (length layupData) 0 (Nat.le_refl _) HT)
    as [Hm Hk].
  rewrite firstn_all in Hm, Hk.
  assert (Hcalls : forall k layer y,
    LayupDrawer.drawNext layupData (length layupData) (Fin 0) !! k
      = Some (layer, y) ->
    exists q h : Q,
      y = Fin q
      /\ LayupDrawer.layerHeight layupData layer = Fin h
      /\ q == 435 * LayupDrawer.totalThickness (take k (rev layupData))
              / LayupDrawer.totalThickness layupData
      /\ q + h
         == 435 * LayupDrawer.totalThickness (take (S k) (rev layupData))
            / LayupDrawer.totalThickness layupData).
  { intros k layer y Hlk. destruct (Hk k layer y Hlk) as (q & -> & Hq).
    exists q. unfold LayupDrawer.layerHeight, LayupDrawer.thicknessScale.
    rewrite (ndiv_Fin _ _ HT). cbn [nmul]. eexists.
    split; [reflexivity|]. split; [reflexivity|].
    assert (Eq1 : q == 435 * LayupDrawer.totalThickness (take k (rev layupData))
                       / LayupDrawer.totalThickness layupData)
      by (rewrite Hq; unfold LayupDrawer.canvasHeight; field; exact HT).
    split; [exact Eq1|].
    assert (Hrev : rev layupData !! k = Some layer).
    { rewrite <- Hm, list_lookup_fmap, Hlk. reflexivity. }
    rewrite (take_S_r _ _ _ Hrev).
    assert (Eapp : LayupDrawer.totalThickness (take k (rev layupData) ++ [layer])
                   == LayupDrawer.totalThickness (take k (rev layupData))
                      + LayupDrawer.thickness layer).
    { unfold LayupDrawer.totalThickness at 1. rewrite fold_left_app.
      cbn [fold_left]. reflexivity. }
    rewrite Eapp, Eq1. unfold LayupDrawer.canvasHeight. field. exact HT. }
  split; [exact Hm|]. split; [exact Hcalls|].
  intros layer y Hlast. rewrite last_lookup in Hlast.
  destruct (Hcalls _ layer y Hlast) as (q & h & -> & Hh & _ & Hqh).
  exists q, h. split; [reflexivity|]. split; [exact Hh|].
  rewrite Hqh.
  assert (Hlen : length (LayupDrawer.drawNext layupData (length layupData) (Fin 0))
                 = length layupData)
    by (transitivity
          (length (map fst (LayupDrawer.drawNext layupData (length layupData) (Fin 0))));
        [symmetry; apply List.length_map | rewrite Hm; apply length_rev]).
  assert (Hpos : (0 < length layupData)%nat).
  { destruct (LayupDrawer.drawNext layupData (length layupData) (Fin 0)) eqn:E;
      [discriminate Hlast|]. cbn in Hlen. lia. }
  rewrite Hlen.
  replace (S (pred (length layupData))) with (length (rev layupData))
    by (rewrite length_rev; lia).
  rewrite firstn_all, totalThickness_rev. field. exact HT.
Qed.

Lemma drawLayup_stacks_witness :
  let layupData :=
    [ LayupDrawer.mkLayer "L1" 40 "C24" 0 "images/paralel-grain-0.jpg";
      LayupDrawer.mkLayer "L2" 20 "C24" 90 "images/perpendicular-grain-90.jpg";
      LayupDrawer.mkLayer "L3" 40 "C24" 0 "images/paralel-grain-0.jpg" ] in
  ~ LayupDrawer.totalThickness layupData == 0
  /\ map fst (LayupDrawer.drawLayup layupData) = rev layupData
  /\ (forall layer y,
        last (LayupDrawer.drawLayup layupData) = Some (layer, y) ->
        exists q h : Q,
          y = Fin q
          /\ LayupDrawer.layerHeight layupData layer = Fin h
          /\ q + h == 435).
Proof.
  intros layupData.
  assert (HT : ~ LayupDrawer.totalThickness layupData == 0)
    by (intros H; vm_compute in H; discriminate H).
  split; [exact HT|].
  destruct (drawLayup_stacks layupData HT) as (Horder & _ & Hlast).
  split; [exact Horder | exact Hlast].
Defined.

(** ** The two-span analyzer: degenerate spans *)

(** A span of length 0 makes the reactions that divide by it not finite:
    with [L2 = 0] neither [R3] nor [R2] is a finite number, with [L1 = 0]
    neither [R1] nor [R2] is. *)
Theorem twoSpanUnequal_reactions_zero_span (L1 L2 w : Q) :
  let r := V2.twoSpanUnequal.reactions L1 L2 w in
  (L2 == 0 ->
     V2.twoSpanUnequal.R3 r = NonFinite /\ V2.twoSpanUnequal.R2 r = NonFinite)
  /\ (L1 == 0 ->
        V2.twoSpanUnequal.R1 r = NonFinite /\ V2.twoSpanUnequal.R2 r = NonFinite).
Proof.
  intros r. subst r. unfold V2.twoSpanUnequal.reactions. cbn zeta.
  cbn [V2.twoSpanUnequal.R1 V2.twoSpanUnequal.R2 V2.twoSpanUnequal.R3].
  split; intros Hz; rewrite (ndiv_zero _ _ Hz); cbn [nadd];
    absorb; split; reflexivity.
Qed.

Lemma twoSpanUnequal_reactions_zero_span_witness :
  let r := V2.twoSpanUnequal.reactions 3 0 5 in
  0 == 0
  /\ V2.twoSpanUnequal.R3 r = NonFinite
  /\ V2.twoSpanUnequal.R2 r = NonFinite.
Proof.
  intros r.
  assert (Hz : 0 == 0) by reflexivity.
  split; [exact Hz|].
  exact (proj1 (twoSpanUnequal_reactions_zero_span 3 0 5) Hz).
Defined.

(** ** The two-span analyzer: moment against shear *)

Lemma twoSpanUnequal_values (beam : Beam) (load : Q) :
  0 < primarySpan beam ->
  0 < secondarySpan beam ->
  exists r1 r2 : Q,
    (forall x, 0 < x < primarySpan beam ->
       V2.twoSpanUnequal.getBendingMomentEquation beam load (JNum x)
         = RObject (Point (JNum x)
             (YNum (Fin (r1 * x - load * (x * (x * 1)) / 2))))
       /\ V2.twoSpanUnequal.getShearForceEquation beam load (JNum x)
         = RObject (Point (JNum x) (YNum (Fin (r1 - load * x)))))
    /\ (forall x,
          primarySpan beam < x < primarySpan beam + secondarySpan beam ->
          V2.twoSpanUnequal.getBendingMomentEquation beam load (JNum x)
            = RObject (Point (JNum x)
                (YNum (Fin (r1 * x + r2 * (x - primarySpan beam)
                            - load * (x * (x * 1)) / 2))))
          /\ V2.twoSpanUnequal.getShearForceEquation beam load (JNum x)
            = RObject (Point (JNum x) (YNum (Fin (r1 + r2 - load * x))))).
Proof.
  intros H1 H2.
  unfold V2.twoSpanUnequal.getBendingMomentEquation,
         V2.twoSpanUnequal.getShearForceEquation.
  cbn zeta.
  destruct (reactions_finite _ _ load H1 H2)
    as (m1 & r1 & r3 & r2 & -> & _ & _ & _ & _).
  cbn [V2.twoSpanUnequal.R1 V2.twoSpanUnequal.R2].
  exists r1, r2.
  split; intros x [Hlo Hhi]; branch; num_eval; split; reflexivity.
Qed.

(** In exact arithmetic, within either span of the two-span beam the
    bending moment changes by the area under the shear-force diagram:
    [M(q) - M(p) = (q - p) * (V(p) + V(q)) / 2].  In binary64 the two
    sides agree up to rounding only. *)
Theorem twoSpanUnequal_moment_is_shear_area (beam : Beam) (load p q : Q) :
  0 < primarySpan beam ->
  0 < secondarySpan beam ->
  (0 < p < primarySpan beam /\ 0 < q < primarySpan beam)
  \/ (primarySpan beam < p < primarySpan beam + secondarySpan beam
      /\ primarySpan beam < q < primarySpan beam + secondarySpan beam) ->
  exists mp mq vp vq : Q,
    V2.twoSpanUnequal.getBendingMomentEquation beam load (JNum p)
      = RObject (Point (JNum p) (YNum (Fin mp)))
    /\ V2.twoSpanUnequal.getBendingMomentEquation beam load (JNum q)
      = RObject (Point (JNum q) (YNum (Fin mq)))
    /\ V2.twoSpanUnequal.getShearForceEquation beam load (JNum p)
      = RObject (Point (JNum p) (YNum (Fin vp)))
    /\ V2.twoSpanUnequal.getShearForceEquation beam load (JNum q)
      = RObject (Point (JNum q) (YNum (Fin vq)))
    /\ mq - mp == (q - p) * (vp + vq) / 2.
Proof.
  intros H1 H2 Hspan.
  destruct (twoSpanUnequal_values beam load H1 H2) as (r1 & r2 & Hfirst & Hsecond).
  destruct Hspan as [[Hp Hq] | [Hp Hq]].
  - destruct (Hfirst p Hp) as [Emp Evp]. destruct (Hfirst q Hq) as [Emq Evq].
    do 4 eexists. repeat (split; [eassumption|]). field.
  - destruct (Hsecond p Hp) as [Emp Evp]. destruct (Hsecond q Hq) as [Emq Evq].
    do 4 eexists. repeat (split; [eassumption|]). field.
Qed.

Lemma twoSpanUnequal_moment_is_shear_area_witness :
  let beam := mkBeam 3 2 (mkMaterial "timber" {[ "EI"%string := 1 ]}) in
  (0 < primarySpan beam /\ 0 < secondarySpan beam
   /\ ((0 < 1 < primarySpan beam /\ 0 < 2 < primarySpan beam)
       \/ (primarySpan beam < 1 < primarySpan beam + secondarySpan beam
           /\ primarySpan beam < 2 < primarySpan beam + secondarySpan beam)))
  /\ exists mp mq vp vq : Q,
       V2.twoSpanUnequal.getBendingMomentEquation beam 5 (JNum 1)
         = RObject (Point (JNum 1) (YNum (Fin mp)))
       /\ V2.twoSpanUnequal.getBendingMomentEquation beam 5 (JNum 2)
         = RObject (Point (JNum 2) (YNum (Fin mq)))
       /\ V2.twoSpanUnequal.getShearForceEquation beam 5 (JNum 1)
         = RObject (Point (JNum 1) (YNum (Fin vp)))
       /\ V2.twoSpanUnequal.getShearForceEquation beam 5 (JNum 2)
         = RObject (Point (JNum 2) (YNum (Fin vq)))
       /\ mq - mp == (2 - 1) * (vp + vq) / 2.
Proof.
  intros beam.
  assert (H1 : 0 < primarySpan beam) by reflexivity.
  assert (H2 : 0 < secondarySpan beam) by reflexivity.
  assert (Hspan : (0 < 1 < primarySpan beam /\ 0 < 2 < primarySpan beam)
       \/ (primarySpan beam < 1 < primarySpan beam + secondarySpan beam
           /\ primarySpan beam < 2 < primarySpan beam + secondarySpan beam))
    by (left; repeat split).
  split; [auto|].
  exact (twoSpanUnequal_moment_is_shear_area beam 5 1 2 H1 H2 Hspan).
Defined.

(** ** The two-span analyzer: deflection at the supports *)


